(** * SliceBuilder: the slice-production pipeline of robustnessgym

    A shallow embedding of [robustnessgym/slicebuilders/slicebuilder.py]
    and the properties of its batching pipeline, of the slice filter and of
    the cache retrieval path.

    Python computations are modelled as values of [Py A]: the list of
    observable calls made so far (to prerequisites, to [prepare_batch], to
    [process_batch], to [print]) paired with either a returned value or the
    raised exception. *)

From stdpp Require Import gmap strings list fin_maps.
From Stdlib Require Import Ascii.

(** ** Exceptions and outcomes *)

Inductive exn : Type :=
| ValueError (msg : string)
| RuntimeError (msg : string)
| NotImplementedError (msg : string)
| KeyError (key : string)
| IndexError (msg : string)
| TypeError (msg : string)
| AttributeError (msg : string).

Inductive result (A : Type) : Type :=
| Ok (a : A)
| Raise (e : exn).
Arguments Ok {A} a.
Arguments Raise {A} e.

Global Instance result_ret : MRet result := λ A a, Ok a.
Global Instance result_bind : MBind result := λ A B f m,
  match m with
  | Ok a => f a
  | Raise e => Raise e
  end.

Definition is_Ok {A} (r : result A) : Prop := ∃ a, r = Ok a.

(** ** numpy boolean matrices

    A two-dimensional boolean array: the number of columns is kept next to
    the rows, so that an array of shape (0, k) still knows k. *)

Record ndarray : Type := NdArray {
  nd_cols : nat;
  nd_rows : list (list bool)
}.

Definition has_shape (a : ndarray) (n k : nat) : Prop :=
  length (nd_rows a) = n ∧ nd_cols a = k ∧ Forall (λ r, length r = k) (nd_rows a).

(** [a[i, j]]; out of range reads are [false] and never used on shaped arrays. *)
Definition nd_get (a : ndarray) (i j : nat) : bool :=
  default false (r ← nd_rows a !! i; r !! j).

(** [a[:, j]] *)
Definition nd_column (a : ndarray) (j : nat) : list bool :=
  (λ r, default false (r !! j)) <$> nd_rows a.

(** [a.T], iterated along its first axis: the columns of [a], left to right. *)
Definition nd_T (a : ndarray) : list (list bool) :=
  nd_column a <$> seq 0 (nd_cols a).

(** [np.concatenate(arrs, axis=0)] on a list whose entries are two-dimensional
    arrays or [None] (which numpy reads as a zero-dimensional array).  The
    messages are the leading words of numpy's. *)
Fixpoint np_concatenate_from (k : nat) (acc : list (list bool))
    (arrs : list (option ndarray)) : result ndarray :=
  match arrs with
  | [] => Ok (NdArray k acc)
  | None :: _ =>
      Raise (ValueError "all the input arrays must have same number of dimensions")
  | Some a :: rest =>
      if decide (nd_cols a = k) then np_concatenate_from k (acc ++ nd_rows a) rest
      else Raise (ValueError
             "all the input array dimensions except for the concatenation axis must match exactly")
  end.

Definition np_concatenate (arrs : list (option ndarray)) : result ndarray :=
  match arrs with
  | [] => Raise (ValueError "need at least one array to concatenate")
  | None :: _ => Raise (ValueError "zero-dimensional arrays cannot be concatenated")
  | Some a :: rest => np_concatenate_from (nd_cols a) (nd_rows a) rest
  end.

(** ** Strings *)

Definition upper_ascii (c : ascii) : ascii :=
  let n := nat_of_ascii c in
  if Nat.leb 97 n && Nat.leb n 122 then ascii_of_nat (n - 32) else c.

Definition lower_ascii (c : ascii) : ascii :=
  let n := nat_of_ascii c in
  if Nat.leb 65 n && Nat.leb n 90 then ascii_of_nat (n + 32) else c.

Fixpoint string_map (f : ascii → ascii) (s : string) : string :=
  match s with
  | EmptyString => EmptyString
  | String c s' => String (f c) (string_map f s')
  end.

(** [str.capitalize()] on ASCII text *)
Definition capitalize (s : string) : string :=
  match s with
  | EmptyString => EmptyString
  | String c s' => String (upper_ascii c) (string_map lower_ascii s')
  end.

(** [", ".join(l)] *)
Fixpoint join (sep : string) (l : list string) : string :=
  match l with
  | [] => ""
  | [s] => s
  | s :: rest => s +:+ sep +:+ join sep rest
  end.

(** [itertools.compress(data, selectors)]: the items of [data] whose selector
    is true; stops with the shorter of the two. *)
Fixpoint compress {A} (data : list A) (selectors : list bool) : list A :=
  match data, selectors with
  | d :: data', s :: selectors' =>
      if s then d :: compress data' selectors' else compress data' selectors'
  | _, _ => []
  end.

(** [range(0, n, step)] for a positive step *)
Definition range_step (n step : nat) : list nat :=
  (λ t, t * step) <$> seq 0 ((n + step - 1) `div` step).

Section slicebuilder.

(** The row of a dataset, the identifier of a slice, the attributes of a
    builder that preparation may update, extra keyword arguments, and raw
    (not yet wrapped) input data. *)
Context {Example Identifier Attrs Kwargs Raw : Type}.

(** [robustnessgym.core.tools.strings_as_json] *)
Variable strings_as_json : list string → string.

(** ** The dataset collection *)

Record LineageEntry : Type := Lineage {
  lin_category : string;
  lin_identifier : Identifier;
  lin_columns : string
}.

Record DataPanel : Type := MkDataPanel {
  dp_rows : list Example;
  dp_column_names : list string;
  dp_format : option (list string);
  dp_category : option string;
  dp_lineage : list LineageEntry
}.

(** What the constructor of [SliceDataPanel] (in [robustnessgym.core.slice])
    leaves in the category and the lineage of a new panel, and what
    [mosaic.concat] raises for fragments whose columns differ. *)
Variable new_category : option string.
Variable new_lineage : list LineageEntry.
Variable concat_error : exn.

(** [DataPanel()]: no row, no column *)
Definition DataPanel_empty : DataPanel := MkDataPanel [] [] None new_category new_lineage.

Definition with_rows (dp : DataPanel) (rows : list Example) : DataPanel :=
  MkDataPanel rows (dp_column_names dp) (dp_format dp) (dp_category dp) (dp_lineage dp).

Definition len (dp : DataPanel) : nat := length (dp_rows dp).

(** Modelled from the spec: the dataset collection is an external
    collaborator (section 6: sequential fixed-size batching that exhausts
    the source exactly once in order).  [dp.batch(batch_size)] yields the
    consecutive row ranges [i, i + batch_size) for i in
    range(0, len(dp), batch_size); a zero step is rejected. *)
Definition batch (dp : DataPanel) (batch_size : nat) : result (list DataPanel) :=
  if decide (batch_size = 0) then Raise (ValueError "range() arg 3 must not be zero")
  else Ok ((λ i, with_rows dp (take batch_size (drop i (dp_rows dp))))
             <$> range_step (len dp) batch_size).

(** Two fragments have the same shape: the same set of column names *)
Definition same_columns (o o' : DataPanel) : bool :=
  bool_decide (list_to_set (dp_column_names o) =@{gset string}
               list_to_set (dp_column_names o')).

(** Modelled from the spec: [mosaic.concat(objs, axis=0)] (section 6:
    concatenation of multiple same-shaped dataset fragments along the
    example axis).  Fragments whose columns differ from those of the first
    are refused; otherwise the result is a panel like the first fragment
    holding the rows of all of them. *)
Definition mosaic_concat (objs : list DataPanel) : result DataPanel :=
  match objs with
  | [] => Raise (ValueError "Must pass at least one object to concat.")
  | o :: rest =>
      if forallb (same_columns o) rest then Ok (with_rows o (concat (dp_rows <$> objs)))
      else Raise concat_error
  end.

(** Modelled from the spec: [with dp.format(columns): ...] (section 4.2: the
    dataset is scoped to project only the given columns for the pass). *)
Definition format (dp : DataPanel) (columns : list string) : DataPanel :=
  MkDataPanel (dp_rows dp) (dp_column_names dp) (Some columns) (dp_category dp)
    (dp_lineage dp).

(** Modelled from the spec: [SliceDataPanel.add_to_lineage] lives in
    [robustnessgym.core.slice] (section 4.5: attach the category, the
    identifier and the encoded column set to the slice). *)
Definition add_to_lineage (sl : DataPanel) (category : string)
    (identifier : Identifier) (columns : string) : DataPanel :=
  MkDataPanel (dp_rows sl) (dp_column_names sl) (dp_format sl) (dp_category sl)
    (dp_lineage sl ++ [Lineage category identifier columns]).

Definition set_category (sl : DataPanel) (category : string) : DataPanel :=
  MkDataPanel (dp_rows sl) (dp_column_names sl) (dp_format sl) (Some category)
    (dp_lineage sl).

(** ** Observable calls and the computation monad *)

Inductive Event : Type :=
| EvAvailable (prerequisite : string)
| EvPrepare (batch : DataPanel)
| EvProcess (batch : DataPanel)
| EvPrint (sliced_batches : option (list DataPanel)) (slice_memberships : option ndarray).

Definition Py (A : Type) : Type := (list Event * result A)%type.

Definition py_ret {A} (a : A) : Py A := ([], Ok a).
Definition py_bind {A B} (m : Py A) (f : A → Py B) : Py B :=
  match m with
  | (t, Ok a) => let '(t', r) := f a in (t ++ t', r)
  | (t, Raise e) => (t, Raise e)
  end.
Definition tell (e : Event) : Py unit := ([e], Ok tt).
Definition raise {A} (e : exn) : Py A := ([], Raise e).
Definition lift {A} (r : result A) : Py A := ([], r).

Definition trace {A} (m : Py A) : list Event := m.1.
Definition outcome {A} (m : Py A) : result A := m.2.

Global Instance Py_ret : MRet Py := @py_ret.
Global Instance Py_bind : MBind Py := λ A B f m, py_bind m f.

(** The batches handed to [process_batch] and to [prepare_batch], in call order. *)
Definition processed_batches (t : list Event) : list DataPanel :=
  omap (λ e, match e with EvProcess b => Some b | _ => None end) t.
Definition prepared_batches (t : list Event) : list DataPanel :=
  omap (λ e, match e with EvPrepare b => Some b | _ => None end) t.

(** ** The builder *)

(** What [__call__] may be given: a DataPanel, or raw data still to be wrapped. *)
Inductive input : Type :=
| IsPanel (dp : DataPanel)
| IsRaw (raw : Raw).

(** [DataPanel(dp)] on raw data *)
Variable DataPanel_of_raw : Raw → DataPanel.

(** A prerequisite: [prereq_name] is its [__name__] when it is a class and
    its [str] otherwise, [prereq_repr] is how it prints inside a set. *)
Record Prerequisite : Type := MkPrerequisite {
  prereq_name : string;
  prereq_repr : string;
  available : input → bool
}.

(** [attrs] stands for the attributes of [self] that [prepare_batch] updates;
    the two methods are fields so that a subclass can override them.
    [prepare_batch] gives the attributes it leaves behind, whether it
    returns or raises. *)
Record SliceBuilder : Type := MkSliceBuilder {
  identifiers : list Identifier;
  category : string;
  prerequisites : list Prerequisite;
  attrs : Attrs;
  prepare_batch : Attrs → DataPanel → list string → Kwargs → Attrs * result unit;
  process_batch : Attrs → DataPanel → list string → Kwargs →
                  result (option (list DataPanel) * option ndarray)
}.

Definition with_attrs (self : SliceBuilder) (a : Attrs) : SliceBuilder :=
  MkSliceBuilder (identifiers self) (category self) (prerequisites self) a
    (prepare_batch self) (process_batch self).

Definition num_slices (self : SliceBuilder) : nat := length (identifiers self).

(** The methods of the base class *)
Definition prepare_batch_base (a : Attrs) (batch : DataPanel) (columns : list string)
    (kwargs : Kwargs) : Attrs * result unit :=
  (a, Raise (NotImplementedError "Implement `prepare_batch`.")).

Definition process_batch_base (a : Attrs) (dp : DataPanel) (columns : list string)
    (kwargs : Kwargs) : result (option (list DataPanel) * option ndarray) :=
  Ok (Some [dp], None).

(** A builder that overrides nothing *)
Definition base_builder (identifiers : list Identifier) (category : string)
    (prerequisites : list Prerequisite) (a : Attrs) : SliceBuilder :=
  MkSliceBuilder identifiers category prerequisites a prepare_batch_base process_batch_base.

Definition set_repr (l : list Prerequisite) : string :=
  "{" +:+ join ", " (prereq_repr <$> l) +:+ "}".

Definition prerequisites_handler (self : SliceBuilder) (dp : input) : Py unit :=
  let pending := List.filter (λ p, negb (available p dp)) (prerequisites self) in
  (EvAvailable ∘ prereq_name <$> prerequisites self,
   match pending with
   | [] => Ok tt
   | _ :: _ =>
       Raise (RuntimeError
         ("Cannot run SliceBuilder, prerequisites " +:+ set_repr pending +:+ " not satisfied."))
   end).

Definition _filter_prerequisite_columns (self : SliceBuilder)
    (columns all_columns : list string) : list string :=
  List.filter
    (λ col, existsb (λ prereq, String.prefix (prereq_name prereq) col) (prerequisites self))
    all_columns.

(** The loop of [prepare_dataset]: [NotImplementedError] breaks out of it,
    any other exception propagates. *)
Fixpoint prepare_batches (self : SliceBuilder) (columns : list string) (kwargs : Kwargs)
    (batches : list DataPanel) (a : Attrs) : Py Attrs :=
  match batches with
  | [] => mret a
  | b :: rest =>
      _ ← tell (EvPrepare b);
      match prepare_batch self a b columns kwargs with
      | (a', Ok _) => prepare_batches self columns kwargs rest a'
      | (a', Raise (NotImplementedError _)) => mret a'
      | (_, Raise e) => raise e
      end
  end.

Definition prepare_dataset (self : SliceBuilder) (dp : DataPanel) (columns : list string)
    (batch_size : option nat) (kwargs : Kwargs) : Py Attrs :=
  let batch_size := default 32 batch_size in
  let scoped :=
    format dp (columns ++ _filter_prerequisite_columns self columns (dp_column_names dp)) in
  batches ← lift (batch scoped batch_size);
  prepare_batches self columns kwargs batches (attrs self).

(** [for sl, sl_batch in zip(slices, sliced_batches): sl.append(sl_batch)] *)
Fixpoint zip_append (slices : list (list DataPanel)) (sliced_batches : list DataPanel)
    : list (list DataPanel) :=
  match slices, sliced_batches with
  | sl :: slices', sl_batch :: sliced_batches' =>
      (sl ++ [sl_batch]) :: zip_append slices' sliced_batches'
  | _, _ => slices
  end.

(** The loop of [process_dataset] *)
Fixpoint process_batches (self : SliceBuilder) (columns : list string) (kwargs : Kwargs)
    (batches : list DataPanel) (slices : list (list DataPanel))
    (all_slice_memberships : list (option ndarray))
    : Py (list (list DataPanel) * list (option ndarray)) :=
  match batches with
  | [] => mret (slices, all_slice_memberships)
  | b :: rest =>
      _ ← tell (EvProcess b);
      '(sliced_batches, slice_memberships) ←
        lift (process_batch self (attrs self) b columns kwargs);
      _ ← tell (EvPrint sliced_batches slice_memberships);
      slices' ← match sliced_batches with
                | Some sbs => mret (zip_append slices sbs)
                | None => raise (TypeError "'NoneType' object is not iterable")
                end;
      process_batches self columns kwargs rest slices'
        (all_slice_memberships ++ [slice_memberships])
  end.

(** [[mosaic.concat(e, axis=0) for e in slices]] *)
Fixpoint concat_each (slices : list (list DataPanel)) : result (list DataPanel) :=
  match slices with
  | [] => Ok []
  | e :: rest =>
      sl ← mosaic_concat e;
      rest' ← concat_each rest;
      mret (sl :: rest')
  end.

(** The body of the lineage loop for [(i, sl)] *)
Definition tag_slice (self : SliceBuilder) (columns : list string) (i : nat)
    (sl : DataPanel) : result DataPanel :=
  match identifiers self !! i with
  | Some identifier =>
      Ok (add_to_lineage (set_category sl (category self))
            (capitalize (category self)) identifier (strings_as_json columns))
  | None => Raise (IndexError "list index out of range")
  end.

Fixpoint tag_slices (self : SliceBuilder) (columns : list string) (i : nat)
    (slices : list DataPanel) : result (list DataPanel) :=
  match slices with
  | [] => Ok []
  | sl :: rest =>
      sl' ← tag_slice self columns i sl;
      rest' ← tag_slices self columns (S i) rest;
      mret (sl' :: rest')
  end.

(** [batch_size] and [num_proc] are [None] when the caller leaves them out;
    [num_proc] is accepted and not used. *)
Definition process_dataset (self : SliceBuilder) (dp : DataPanel) (columns : list string)
    (batch_size : option nat) (num_proc : option nat) (kwargs : Kwargs)
    : Py (list DataPanel * ndarray) :=
  let batch_size := default 32 batch_size in
  let slices := replicate (length (identifiers self)) [DataPanel_empty] in
  batches ← lift (batch dp batch_size);
  '(slices, all_slice_memberships) ←
    process_batches self columns kwargs batches slices [];
  slice_membership ← lift (np_concatenate all_slice_memberships);
  slices ← lift (concat_each slices);
  slices ← lift (tag_slices self columns 0 slices);
  mret (slices, slice_membership).

(** The DataPanel branch of [__call__], after the prerequisite check *)
Definition call_panel (self : SliceBuilder) (dp : DataPanel) (columns : list string)
    (batch_size : nat) (num_proc : option nat) (kwargs : Kwargs)
    : Py (list DataPanel * ndarray) :=
  a ← prepare_dataset self dp columns (Some batch_size) kwargs;
  process_dataset (with_attrs self a) dp columns None num_proc kwargs.

(** [__call__].  On raw data it calls itself once more on [DataPanel(dp)],
    handing over neither [batch_size] nor [num_proc]; that inner call is
    written out here. *)
Definition call (self : SliceBuilder) (dp : input) (columns : list string)
    (batch_size : option nat) (num_proc : option nat) (kwargs : Kwargs)
    : Py (list DataPanel * ndarray) :=
  let batch_size := default 100 batch_size in
  _ ← prerequisites_handler self dp;
  match dp with
  | IsPanel p => call_panel self p columns batch_size num_proc kwargs
  | IsRaw raw =>
      let p := DataPanel_of_raw raw in
      _ ← prerequisites_handler self (IsPanel p);
      call_panel self p columns 100 None kwargs
  end.

(** ** What a batch transformer is asked to honor (section 4.3) *)

(** The sub-batches and the membership submatrix [process_batch] returns for
    a batch; empty when it raises or returns [None]. *)
Definition sub_batches (self : SliceBuilder) (columns : list string) (kwargs : Kwargs)
    (b : DataPanel) : list DataPanel :=
  match process_batch self (attrs self) b columns kwargs with
  | Ok (Some sbs, _) => sbs
  | _ => []
  end.

Definition sub_matrix (self : SliceBuilder) (columns : list string) (kwargs : Kwargs)
    (b : DataPanel) : ndarray :=
  match process_batch self (attrs self) b columns kwargs with
  | Ok (_, Some m) => m
  | _ => NdArray 0 []
  end.

(** On every batch: [num_slices] sub-batches and a membership submatrix of
    shape (len(batch), num_slices). *)
Definition honors_contract (self : SliceBuilder) (columns : list string)
    (kwargs : Kwargs) : Prop :=
  ∀ b : DataPanel, ∃ sbs m,
    process_batch self (attrs self) b columns kwargs = Ok (Some sbs, Some m)
    ∧ length sbs = num_slices self
    ∧ has_shape m (len b) (num_slices self).

(** The rows sub-batch [j] of a batch contributes to slice [j] *)
Definition sub_rows (self : SliceBuilder) (columns : list string) (kwargs : Kwargs)
    (j : nat) (b : DataPanel) : list Example :=
  from_option dp_rows [] (sub_batches self columns kwargs b !! j).

(** Sub-batch [j] of a batch can be concatenated with [DataPanel()] *)
Definition sub_fits (self : SliceBuilder) (columns : list string) (kwargs : Kwargs)
    (j : nat) (b : DataPanel) : bool :=
  from_option (same_columns DataPanel_empty) true (sub_batches self columns kwargs b !! j).

(** Every sub-batch that reaches an accumulator can *)
Definition all_fit (self : SliceBuilder) (columns : list string) (kwargs : Kwargs)
    (batches : list DataPanel) : bool :=
  forallb (λ j, forallb (sub_fits self columns kwargs j) batches)
    (seq 0 (length (identifiers self))).

(** The columns of sub-batch [j] of a batch *)
Definition sub_columns (self : SliceBuilder) (columns : list string) (kwargs : Kwargs)
    (j : nat) (b : DataPanel) : gset string :=
  from_option (λ sb, list_to_set (dp_column_names sb)) ∅
    (sub_batches self columns kwargs b !! j).

(** The transformer treats a batch example by example: what it returns for
    two row ranges put together is what it returns for each, put together,
    and the columns of its sub-batches are the same for every row range. *)
Definition example_wise (self : SliceBuilder) (columns : list string)
    (kwargs : Kwargs) : Prop :=
  ∀ (dp : DataPanel) (r1 r2 : list Example),
    (∀ j, sub_rows self columns kwargs j (with_rows dp (r1 ++ r2))
          = sub_rows self columns kwargs j (with_rows dp r1)
            ++ sub_rows self columns kwargs j (with_rows dp r2))
    ∧ nd_rows (sub_matrix self columns kwargs (with_rows dp (r1 ++ r2)))
      = nd_rows (sub_matrix self columns kwargs (with_rows dp r1))
        ++ nd_rows (sub_matrix self columns kwargs (with_rows dp r2))
    ∧ (∀ j, sub_columns self columns kwargs j (with_rows dp r1)
            = sub_columns self columns kwargs j (with_rows dp r2)).

(** What the lineage loop leaves on slice [i] holding [rows] *)
Definition final_slice (self : SliceBuilder) (columns : list string)
    (identifier : Identifier) (rows : list Example) : DataPanel :=
  add_to_lineage (set_category (with_rows DataPanel_empty rows) (category self))
    (capitalize (category self)) identifier (strings_as_json columns).

(** The accumulators after the loop has taken in [batches] *)
Definition accumulate (self : SliceBuilder) (columns : list string) (kwargs : Kwargs)
    (slices : list (list DataPanel)) (batches : list DataPanel) : list (list DataPanel) :=
  foldl (λ sl b, zip_append sl (sub_batches self columns kwargs b)) slices batches.

(** What [process_dataset] puts together from the batches it was given *)
Definition assembled (self : SliceBuilder) (columns : list string) (kwargs : Kwargs)
    (batches : list DataPanel) : list DataPanel * ndarray :=
  (imap (λ j identifier,
           final_slice self columns identifier
             (concat (sub_rows self columns kwargs j <$> batches)))
        (identifiers self),
   NdArray (num_slices self)
     (concat ((λ b, nd_rows (sub_matrix self columns kwargs b)) <$> batches))).

(** The DataPanel [__call__] ends up working on *)
Definition panel_of (dp : input) : DataPanel :=
  match dp with
  | IsPanel p => p
  | IsRaw raw => DataPanel_of_raw raw
  end.

(** A builder in the style of the subpopulation builders: one predicate per
    slice, membership computed row by row, sub-batches cut out of the batch
    with the membership columns. *)
Definition membership_of (preds : list (Example → bool)) (rows : list Example) : ndarray :=
  NdArray (length preds) ((λ x, (λ p : Example → bool, p x) <$> preds) <$> rows).

Definition filter_process_batch (preds : list (Example → bool)) (a : Attrs)
    (dp : DataPanel) (columns : list string) (kwargs : Kwargs)
    : result (option (list DataPanel) * option ndarray) :=
  let m := membership_of preds (dp_rows dp) in
  Ok (Some ((λ s, with_rows dp (compress (dp_rows dp) s)) <$> nd_T m), Some m).

(** A builder whose membership depends on the batch around an example: it
    marks the first example of every batch and no other, and hands back a
    new, empty panel as its one sub-batch. *)
Definition head_process_batch (a : Attrs) (dp : DataPanel) (columns : list string)
    (kwargs : Kwargs) : result (option (list DataPanel) * option ndarray) :=
  let m := NdArray 1 (imap (λ i _, [bool_decide (i = 0)]) (dp_rows dp)) in
  Ok (Some [DataPanel_empty], Some m).

(** A builder that reports membership in the matrix only: one predicate per
    slice, membership computed row by row, and a new, empty panel for every
    sub-batch. *)
Definition marker_process_batch (preds : list (Example → bool)) (a : Attrs)
    (dp : DataPanel) (columns : list string) (kwargs : Kwargs)
    : result (option (list DataPanel) * option ndarray) :=
  Ok (Some ((λ _, DataPanel_empty) <$> preds), Some (membership_of preds (dp_rows dp))).

(** ** The rest of the class *)

(** The membership submatrix [process_batch] returns for a batch, [None]
    included *)
Definition sub_membership (self : SliceBuilder) (columns : list string) (kwargs : Kwargs)
    (b : DataPanel) : option ndarray :=
  match process_batch self (attrs self) b columns kwargs with
  | Ok (_, sm) => sm
  | Raise _ => None
  end.

(** The attributes after [prepare_batch] has seen [batches], one after the
    other *)
Definition prepared_attrs (self : SliceBuilder) (columns : list string) (kwargs : Kwargs)
    (batches : list DataPanel) (a : Attrs) : Attrs :=
  foldl (λ a b, (prepare_batch self a b columns kwargs).1) a batches.

Definition filter_builder (identifiers : list Identifier) (category : string)
    (preds : list (Example → bool)) (a : Attrs) : SliceBuilder :=
  MkSliceBuilder identifiers category [] a prepare_batch_base (filter_process_batch preds).

Definition head_builder (identifier : Identifier) (category : string) (a : Attrs)
    : SliceBuilder :=
  MkSliceBuilder [identifier] category [] a prepare_batch_base head_process_batch.

Definition marker_builder (identifiers : list Identifier) (category : string)
    (preds : list (Example → bool)) (a : Attrs) : SliceBuilder :=
  MkSliceBuilder identifiers category [] a prepare_batch_base (marker_process_batch preds).

End slicebuilder.

(** ** Filtering a columnar batch by slice membership *)

Section filter.
Context {V : Type}.

Definition filter_batch_by_slice_membership (batch : gmap string (list V))
    (slice_membership : ndarray) : list (gmap string (list V)) :=
  (λ s, (λ v, compress v s) <$> batch) <$> nd_T slice_membership.

(** The rows [i] of a column for which [keep i] holds, by increasing [i] *)
Definition select_rows (v : list V) (keep : nat → bool) : list V :=
  omap (λ i, v !! i) (List.filter keep (seq 0 (length v))).

End filter.

(** ** Retrieval from the cache *)

Section retrieve.
Context {Encoded Decoded SliceInfo Identifier ProcFn : Type}.

(** [robustnessgym.core.tools.strings_as_json], [cls.decode] of the storage
    mixin, [cls.__name__] and [str] of an [Identifier] *)
Variable strings_as_json : list string → string.
Variable decode : Encoded → Decoded.
Variable cls_name : string.
Variable str_of_identifier : Identifier → string.

(** What indexing a DataPanel by the name of a column it does not have raises *)
Variable missing_column : string → exn.

(** The two columns of the batch that [retrieve] looks at, each present or
    not: a cell of "slices" is a dict (its keys in order), a cell of "cache"
    maps an identifier string to a column-set key to an encoded value. *)
Record CachedPanel : Type := MkCachedPanel {
  slices_column : option (list (list (string * SliceInfo)));
  cache_column : option (list (gmap string (gmap string Encoded)))
}.

(** [identifier: Union[str, Identifier] = None] *)
Inductive identifier_arg : Type :=
| IdNone
| IdStr (s : string)
| IdObj (i : Identifier).

Definition identifier_truthy (identifier : identifier_arg) : bool :=
  match identifier with
  | IdNone => false
  | IdStr s => negb (String.eqb s "")
  | IdObj _ => true
  end.

Definition str (identifier : identifier_arg) : string :=
  match identifier with
  | IdNone => "None"
  | IdStr s => s
  | IdObj i => str_of_identifier i
  end.

(** [columns: Union[List[str], List[List[str]]]]; the empty list is both
    [Single []] and [Batched []]. *)
Inductive columns_arg : Type :=
| Single (columns : list string)
| Batched (columns : list (list string)).

(** [proc_fns: Union[str, Callable, List[Union[str, Callable]]] = None] *)
Inductive proc_fns_arg : Type :=
| ProcNone
| ProcStr (s : string)
| ProcCallable (f : ProcFn)
| ProcList (l : list (string + ProcFn)).

Definition proc_fns_truthy (proc_fns : proc_fns_arg) : bool :=
  match proc_fns with
  | ProcNone => false
  | ProcStr s => negb (String.eqb s "")
  | ProcCallable _ => true
  | ProcList l => negb (bool_decide (l = []))
  end.

(** The first key of the first "slices" cell that starts with the class name *)
Definition infer_identifier (first : list (string * SliceInfo))
    (identifier : identifier_arg) : identifier_arg :=
  match List.find (λ ident_key, String.prefix cls_name ident_key) (first.*1) with
  | Some ident_key => IdStr ident_key
  | None => identifier
  end.

(** [cls.decode(cache[str(identifier)][key])] *)
Definition lookup_cache (cache : gmap string (gmap string Encoded))
    (identifier key : string) : result Decoded :=
  match cache !! identifier with
  | None => Raise (KeyError identifier)
  | Some per_columns =>
      match per_columns !! key with
      | None => Raise (KeyError key)
      | Some e => Ok (decode e)
      end
  end.

Fixpoint lookup_each (caches : list (gmap string (gmap string Encoded)))
    (identifier key : string) : result (list Decoded) :=
  match caches with
  | [] => Ok []
  | cache :: rest =>
      d ← lookup_cache cache identifier key;
      ds ← lookup_each rest identifier key;
      mret (d :: ds)
  end.

(** [[cls.decode(cache[str(identifier)][strings_as_json(cols)])
      for cache in batch["cache"]]] *)
Definition retrieve_column_set (batch : CachedPanel) (identifier : identifier_arg)
    (cols : list string) : result (list Decoded) :=
  match cache_column batch with
  | None => Raise (missing_column "cache")
  | Some caches => lookup_each caches (str identifier) (strings_as_json cols)
  end.

(** The dict comprehension over [cols_ in columns]; a later column set with
    the same key replaces an earlier one. *)
Fixpoint retrieve_column_sets (batch : CachedPanel) (identifier : identifier_arg)
    (columns : list (list string)) (acc : gmap string (list Decoded))
    : result (gmap string (list Decoded)) :=
  match columns with
  | [] => Ok acc
  | cols_ :: rest =>
      ds ← retrieve_column_set batch identifier cols_;
      retrieve_column_sets batch identifier rest (<[strings_as_json cols_ := ds]> acc)
  end.

(** [try: ... except KeyError: raise ValueError(...)] *)
Definition except_KeyError {A} (body : result A) (handler : exn) : result A :=
  match body with
  | Raise (KeyError _) => Raise handler
  | _ => body
  end.

Definition retrieval_failed : exn :=
  ValueError "Could not retrieve information for all keys.".

(** The body of the [try] block: the single retrieval when [columns[0]] is
    a string, the batched one otherwise. *)
Definition try_retrieval (batch : CachedPanel) (identifier : identifier_arg)
    (columns : columns_arg) : result (gmap string (list Decoded)) :=
  match columns with
  | Single [] | Batched [] => Raise (IndexError "list index out of range")
  | Single (c :: cs) =>
      ds ← retrieve_column_set batch identifier (c :: cs);
      mret {[ strings_as_json (c :: cs) := ds ]}
  | Batched colss => retrieve_column_sets batch identifier colss ∅
  end.

Definition retrieve (batch : CachedPanel) (columns : columns_arg)
    (proc_fns : proc_fns_arg) (identifier : identifier_arg) (reapply : bool)
    : result (option (gmap string (list Decoded))) :=
  if negb reapply then
    match slices_column batch with
    | None => Ok None
    | Some slices =>
        identifier ←
          (if negb (identifier_truthy identifier) then
             match slices with
             | [] => Raise (IndexError "list index out of range")
             | first :: _ => Ok (infer_identifier first identifier)
             end
           else Ok identifier);
        retrieval ←
          except_KeyError (try_retrieval batch identifier columns) retrieval_failed;
        if negb (proc_fns_truthy proc_fns) then Ok (Some retrieval) else Ok None
    end
  else Ok None.

(** The identifier string the lookups use *)
Definition lookup_identifier (batch : CachedPanel) (identifier : identifier_arg) : string :=
  if identifier_truthy identifier then str identifier
  else match slices_column batch with
       | Some (first :: _) => str (infer_identifier first identifier)
       | _ => str identifier
       end.

(** The column sets a [columns] argument asks for *)
Definition requested (columns : columns_arg) : list (list string) :=
  match columns with
  | Single [] => []
  | Single cols => [cols]
  | Batched colss => colss
  end.

(** A cache cell holds an entry for the identifier and the column set *)
Definition has_key (cache : gmap string (gmap string Encoded)) (identifier : string)
    (cols : list string) : Prop :=
  is_Some (per_columns ← cache !! identifier; per_columns !! strings_as_json cols).

End retrieve.

(** ** Sample data: rows are numbers, identifiers are strings *)

(** A stand-in for [strings_as_json] *)
Definition columns_key (columns : list string) : string := join ", " columns.

Definition sample_panel (rows : list nat) : @DataPanel nat string :=
  MkDataPanel rows ["text"] None None [].

Definition wrap_rows (raw : list nat) : @DataPanel nat string := sample_panel raw.

(** The base class with one identifier *)
Definition identity_builder : @SliceBuilder nat string unit unit (list nat) :=
  base_builder ["Identity"] "generic" [] tt.

(** Even numbers to slice 0, odd numbers to slice 1 *)
Definition parity_builder : @SliceBuilder nat string unit unit (list nat) :=
  filter_builder ["even"; "odd"] "subpopulation" [Nat.even; Nat.odd] tt.

(** Stand-ins for what a new [SliceDataPanel] carries and for the error of
    [mosaic.concat]; the statements on sample data do not depend on what
    they hold. *)
Definition some_category : option string := Some "generic".
Definition some_lineage : list (@LineageEntry string) :=
  [Lineage "SliceDataPanel" "SliceDataPanel" ""].
Definition some_concat_error : exn :=
  ValueError "cannot concatenate panels with different columns".

Definition first_in_batch_builder : @SliceBuilder nat string unit unit (list nat) :=
  head_builder some_category some_lineage "first" "subpopulation" tt.

(** Even and odd numbers marked in the matrix, empty panels as sub-batches *)
Definition parity_marker : @SliceBuilder nat string unit unit (list nat) :=
  marker_builder some_category some_lineage ["even"; "odd"] "subpopulation"
    [Nat.even; Nat.odd] tt.

(** [process_dataset] and [__call__] on sample data *)
Definition sample_process_dataset :=
  @process_dataset nat string unit unit (list nat) columns_key some_category some_lineage
    some_concat_error.
Definition sample_call :=
  @call nat string unit unit (list nat) columns_key some_category some_lineage
    some_concat_error wrap_rows.

Definition never_available : @Prerequisite nat string (list nat) :=
  MkPrerequisite "Spacy" "<class 'Spacy'>" (λ _, false).

Definition gated_builder : @SliceBuilder nat string unit unit (list nat) :=
  base_builder ["Identity"] "generic" [never_available] tt.

(** A batch with one row, whose cache holds one entry *)
Definition sample_cache : gmap string (gmap string nat) :=
  {[ "SliceBuilder(x)" := {[ "text" := 7 ]} ]}.

Definition cached_panel : @CachedPanel nat unit :=
  MkCachedPanel (Some [[("SliceBuilder(x)", tt)]]) (Some [sample_cache]).

Definition bare_panel : @CachedPanel nat unit := MkCachedPanel None None.

(** A "slices" column and no "cache" column *)
Definition slices_only_panel : @CachedPanel nat unit :=
  MkCachedPanel (Some [[("SliceBuilder(x)", tt)]]) None.

(** A stand-in for what indexing a DataPanel by the name of a column it
    does not have raises: an [AttributeError] *)
Definition sample_missing_column (column : string) : exn :=
  AttributeError ("no column '" +:+ column +:+ "'").

(** [retrieve] for a class named SliceBuilder whose [decode] is the identity *)
Definition sample_retrieve
    : @CachedPanel nat unit → columns_arg → @proc_fns_arg unit →
      @identifier_arg string → bool → result (option (gmap string (list nat))) :=
  retrieve columns_key id "SliceBuilder" id sample_missing_column.

Definition sample_batch : gmap string (list string) :=
  {[ "text" := ["a"; "b"; "c"] ]}.

Definition sample_membership : ndarray :=
  NdArray 2 [[true; false]; [false; true]; [true; true]].

(** A builder whose preparation counts the rows it is shown *)
Definition counting_builder : @SliceBuilder nat string nat unit (list nat) :=
  MkSliceBuilder ["even"; "odd"] "subpopulation" [] 0
    (λ a b _ _, (a + len b, Ok tt))
    (filter_process_batch [Nat.even; Nat.odd]).

(** A builder that refuses a batch holding the number 3 *)
Definition fragile_builder : @SliceBuilder nat string unit unit (list nat) :=
  MkSliceBuilder ["even"; "odd"] "subpopulation" [] tt prepare_batch_base
    (λ a dp columns kwargs,
       if existsb (Nat.eqb 3) (dp_rows dp) then Raise (ValueError "unexpected 3")
       else filter_process_batch [Nat.even; Nat.odd] a dp columns kwargs).

(** A membership matrix whose rows mark one slice each *)
Definition one_hot_membership : ndarray :=
  NdArray 2 [[true; false]; [false; true]; [true; false]].

(** A batch whose "slices" cell has no key of the class *)
Definition foreign_panel : @CachedPanel nat unit :=
  MkCachedPanel (Some [[("Other(x)", tt)]]) (Some [sample_cache]).


(** * Properties of the pipeline *)

Section slicebuilder_properties.
Context {Example Identifier Attrs Kwargs Raw : Type}.
Variable strings_as_json : list string → string.
Variable new_category : option string.
Variable new_lineage : list (@LineageEntry Identifier).
Variable concat_error : exn.
Variable DataPanel_of_raw : Raw → @DataPanel Example Identifier.

Abbreviation SB := (@SliceBuilder Example Identifier Attrs Kwargs Raw).
Abbreviation DP := (@DataPanel Example Identifier).
Abbreviation PyE := (@Py Example Identifier).

(** ** The monad *)

Lemma outcome_bind {A B} (m : PyE A) (f : A → PyE B) :
  outcome (py_bind m f)
  = match outcome m with Ok a => outcome (f a) | Raise e => Raise e end.
Proof.
  destruct m as [t [a|e]]; cbn; [|done].
  by destruct (f a).
Qed.

Lemma trace_bind {A B} (m : PyE A) (f : A → PyE B) :
  trace (py_bind m f)
  = trace m ++ match outcome m with Ok a => trace (f a) | Raise _ => [] end.
Proof.
  destruct m as [t [a|e]]; cbn; [|by rewrite app_nil_r].
  by destruct (f a).
Qed.

Ltac py_unfold := unfold mbind, mret, Py_bind, Py_ret.
Ltac py_outcome :=
  repeat progress
    (py_unfold; rewrite ?outcome_bind;
     cbn [outcome tell lift raise py_ret snd result_bind result_ret]).

(** ** The accumulators *)

Lemma zip_append_lookup (slices : list (list DP)) (sbs : list DP) (j : nat) :
  zip_append slices sbs !! j = (λ sl, sl ++ option_list (sbs !! j)) <$> slices !! j.
Proof.
  revert sbs j. induction slices as [|sl slices IH]; intros sbs j; [by destruct sbs|].
  destruct sbs as [|sb sbs].
  - cbn [zip_append]. rewrite lookup_nil. cbn.
    destruct ((sl :: slices) !! j); cbn; [by rewrite app_nil_r|done].
  - destruct j as [|j]; cbn; [done|]. apply IH.
Qed.

Lemma accumulate_lookup (self : SB) columns kwargs slices batches (j : nat) :
  accumulate self columns kwargs slices batches !! j
  = (λ sl, sl ++ omap (λ b, sub_batches self columns kwargs b !! j) batches)
      <$> slices !! j.
Proof.
  unfold accumulate. revert slices.
  induction batches as [|b batches IH]; intros slices; cbn [foldl].
  - cbn. destruct (slices !! j); cbn; [by rewrite app_nil_r|done].
  - rewrite IH, zip_append_lookup. destruct (slices !! j) as [sl|]; cbn; [|done].
    f_equal. rewrite <- app_assoc. f_equal.
    by destruct (sub_batches self columns kwargs b !! j).
Qed.

Lemma accumulate_fresh (self : SB) columns kwargs batches :
  accumulate self columns kwargs
    (replicate (length (identifiers self)) [DataPanel_empty new_category new_lineage]) batches
  = imap (λ j _, (DataPanel_empty new_category new_lineage)
                 :: omap (λ b, sub_batches self columns kwargs b !! j) batches)
      (identifiers self).
Proof.
  apply list_eq. intros j.
  rewrite accumulate_lookup, list_lookup_imap.
  destruct (identifiers self !! j) as [ident|] eqn:E.
  - rewrite (lookup_replicate_2 _ _ _ (lookup_lt_Some _ _ _ E)). done.
  - apply lookup_ge_None in E.
    rewrite (lookup_ge_None_2 (replicate _ _) j); [done|].
    by rewrite length_replicate.
Qed.

(** ** The loop under the contract *)

Lemma process_batches_outcome (self : SB) columns kwargs batches slices ms :
  honors_contract self columns kwargs →
  outcome (process_batches self columns kwargs batches slices ms)
  = Ok (accumulate self columns kwargs slices batches,
        ms ++ ((λ b, Some (sub_matrix self columns kwargs b)) <$> batches)).
Proof.
  intros Hc. revert slices ms.
  induction batches as [|b batches IH]; intros slices ms.
  - cbn. by rewrite app_nil_r.
  - cbn [process_batches]. py_outcome.
    destruct (Hc b) as (sbs & m & Hpb & _). rewrite Hpb. py_outcome.
    rewrite IH. cbn [fmap list_fmap accumulate foldl].
    unfold sub_batches at 2, sub_matrix at 2. rewrite Hpb.
    by rewrite <- app_assoc.
Qed.

(** ** Putting the pieces together *)

Lemma np_concatenate_from_ok (k : nat) (acc : list (list bool)) (ms : list ndarray) :
  Forall (λ a, nd_cols a = k) ms →
  np_concatenate_from k acc (Some <$> ms) = Ok (NdArray k (acc ++ concat (nd_rows <$> ms))).
Proof.
  intros Hk. revert acc. induction Hk as [|a ms Ha _ IH]; intros acc; cbn.
  - by rewrite app_nil_r.
  - rewrite decide_True by done. rewrite IH. by rewrite <- app_assoc.
Qed.

Lemma np_concatenate_ok (k : nat) (ms : list ndarray) :
  ms ≠ [] → Forall (λ a, nd_cols a = k) ms →
  np_concatenate (Some <$> ms) = Ok (NdArray k (concat (nd_rows <$> ms))).
Proof.
  intros Hne Hk. destruct Hk as [|a ms Ha Hk]; [done|].
  rewrite fmap_cons. cbn [np_concatenate].
  by rewrite Ha, np_concatenate_from_ok.
Qed.

Lemma forallb_omap {A B} (P : B → bool) (f : A → option B) (l : list A) :
  forallb P (omap f l) = forallb (λ x, from_option P true (f x)) l.
Proof.
  induction l as [|x l IH]; [done|].
  cbn. destruct (f x); cbn; by rewrite IH.
Qed.

Lemma forallb_pointwise {A} (f g : A → bool) (l : list A) :
  (∀ x, f x = g x) → forallb f l = forallb g l.
Proof. intros H. induction l as [|x l IH]; [done|]. cbn. by rewrite H, IH. Qed.

Lemma all_fit_accumulated (self : SB) columns kwargs (batches : list DP) :
  all_fit new_category new_lineage self columns kwargs batches
  = forallb (λ j, forallb (same_columns (DataPanel_empty new_category new_lineage))
                    (omap (λ b, sub_batches self columns kwargs b !! j) batches))
      (seq 0 (length (identifiers self))).
Proof.
  unfold all_fit. apply forallb_pointwise. intros j.
  by rewrite forallb_omap.
Qed.

(** [mosaic.concat] goes through on the accumulators exactly when every
    fragment appended to one of them has the columns of [DataPanel()]. *)
Lemma concat_each_fresh {X} (g : nat → list DP) (l : list X) (i : nat) :
  concat_each concat_error
    (imap (λ j _, (DataPanel_empty new_category new_lineage) :: g (i + j)) l)
  = if forallb (λ j, forallb (same_columns (DataPanel_empty new_category new_lineage)) (g j))
         (seq i (length l))
    then Ok (imap (λ j _, with_rows (DataPanel_empty new_category new_lineage)
                            (concat (dp_rows <$> g (i + j)))) l)
    else Raise concat_error.
Proof.
  revert i. induction l as [|x l IH]; intros i; [done|].
  cbn [imap concat_each mosaic_concat length seq forallb]. unfold compose.
  rewrite Nat.add_0_r.
  rewrite (imap_ext _ (λ j _, (DataPanel_empty new_category new_lineage) :: g (S i + j))).
  2: { intros j y _. cbn beta. do 2 f_equal. lia. }
  rewrite (IH (S i)).
  destruct (forallb (same_columns _) (g i)); cbn [andb]; unfold mbind, mret;
    cbn [result_bind result_ret]; [|done].
  destruct (forallb _ (seq (S i) (length l))); cbn [result_bind result_ret]; [|done].
  do 2 f_equal. apply imap_ext. intros j y _. cbn beta.
  by replace (S i + j) with (i + S j) by lia.
Qed.

Lemma tag_slices_imap (self : SB) columns (h : nat → list Example) (l : list Identifier)
    (i : nat) :
  drop i (identifiers self) = l →
  tag_slices strings_as_json self columns i
    (imap (λ j _, with_rows (DataPanel_empty new_category new_lineage) (h (i + j))) l)
  = Ok (imap (λ j identifier,
                final_slice strings_as_json new_category new_lineage self columns
                  identifier (h (i + j))) l).
Proof.
  revert i. induction l as [|x l IH]; intros i Hdrop; [done|].
  assert (identifiers self !! i = Some x) as Hi.
  { rewrite <- (Nat.add_0_r i), <- lookup_drop, Hdrop. done. }
  assert (drop (S i) (identifiers self) = l) as Hdrop'.
  { rewrite (drop_S _ _ _ Hi) in Hdrop. by injection Hdrop. }
  cbn [imap tag_slices]. unfold tag_slice. rewrite Hi.
  unfold mbind, mret. cbn [result_bind result_ret]. unfold compose.
  rewrite (imap_ext _ (λ j _, with_rows (DataPanel_empty new_category new_lineage) (h (S i + j)))).
  2: { intros j y _. cbn. do 2 f_equal. lia. }
  rewrite (IH (S i) Hdrop'). cbn [result_bind result_ret]. do 2 f_equal.
  apply imap_ext. intros j y _. cbn. do 2 f_equal. lia.
Qed.

Lemma concat_sub_rows (self : SB) columns kwargs (j : nat) (batches : list DP) :
  concat (dp_rows <$> omap (λ b, sub_batches self columns kwargs b !! j) batches)
  = concat (sub_rows self columns kwargs j <$> batches).
Proof.
  induction batches as [|b batches IH]; [done|].
  cbn. unfold sub_rows at 1.
  destruct (sub_batches self columns kwargs b !! j); cbn; by rewrite IH.
Qed.

Lemma process_dataset_outcome (self : SB) dp columns batch_size num_proc kwargs batches :
  honors_contract self columns kwargs →
  batch dp (default 32 batch_size) = Ok batches →
  outcome (process_dataset strings_as_json new_category new_lineage concat_error
             self dp columns batch_size num_proc kwargs)
  = match batches with
    | [] => Raise (ValueError "need at least one array to concatenate")
    | _ :: _ =>
        if all_fit new_category new_lineage self columns kwargs batches
        then Ok (assembled strings_as_json new_category new_lineage self columns kwargs batches)
        else Raise concat_error
    end.
Proof.
  intros Hc Hb. unfold process_dataset. py_outcome. rewrite Hb. py_outcome.
  rewrite (process_batches_outcome _ _ _ _ _ _ Hc). py_outcome.
  rewrite app_nil_l, accumulate_fresh.
  rewrite (list_fmap_compose (sub_matrix self columns kwargs) Some).
  destruct batches as [|b batches]; [done|].
  rewrite (np_concatenate_ok (num_slices self)); [|done|].
  2: { apply Forall_fmap, Forall_forall. intros b' _. cbn.
       unfold sub_matrix. destruct (Hc b') as (sbs & m & -> & _ & _ & Hk & _). done. }
  py_outcome.
  rewrite (concat_each_fresh
             (λ j, omap (λ b, sub_batches self columns kwargs b !! j) (b :: batches)) _ 0).
  rewrite <- all_fit_accumulated.
  destruct (all_fit _ _ _ _ _ _); py_outcome; [|done].
  rewrite (imap_ext _ (λ j _, with_rows (DataPanel_empty new_category new_lineage)
             (concat (sub_rows self columns kwargs (0 + j) <$> b :: batches)))).
  2: { intros j y _. cbn beta. by rewrite concat_sub_rows. }
  rewrite (tag_slices_imap self columns
             (λ j, concat (sub_rows self columns kwargs j <$> b :: batches))); [|done].
  py_outcome. unfold assembled. by rewrite <- list_fmap_compose.
Qed.

(** ** Batching *)

Lemma range_step_lookup (n b t : nat) :
  0 < b → t * b < n → range_step n b !! t = Some (t * b).
Proof.
  intros Hb Ht. unfold range_step.
  rewrite list_lookup_fmap, lookup_seq_lt; [done|].
  apply (Nat.lt_le_trans _ (S t)); [lia|].
  apply Nat.div_le_lower_bound; lia.
Qed.

Lemma range_step_length (n b : nat) :
  length (range_step n b) = (n + b - 1) `div` b.
Proof. unfold range_step. by rewrite length_fmap, length_seq. Qed.

Lemma range_step_nil (n b : nat) : 0 < b → range_step n b = [] ↔ n = 0.
Proof.
  intros Hb. rewrite <- length_zero_iff_nil, range_step_length.
  rewrite Nat.div_small_iff by lia. lia.
Qed.

Lemma chunks_concat {A} (l : list A) (b m : nat) :
  concat ((λ i, take b (drop i l)) <$> ((λ t, t * b) <$> seq 0 m)) = take (m * b) l.
Proof.
  induction m as [|m IH]; [done|].
  rewrite seq_S, !fmap_app, concat_app, IH. cbn.
  rewrite app_nil_r, take_take_drop. f_equal. lia.
Qed.

Lemma batch_chunks (dp : DP) (b : nat) (batches : list DP) :
  batch dp b = Ok batches →
  0 < b ∧ ∃ cs, batches = with_rows dp <$> cs ∧ concat cs = dp_rows dp
    ∧ cs = (λ i, take b (drop i (dp_rows dp))) <$> range_step (len dp) b.
Proof.
  unfold batch. case_decide as Hb; [done|]. intros [= <-].
  split; [lia|]. eexists. split; [|split; [|done]].
  - by rewrite <- list_fmap_compose.
  - unfold range_step. rewrite chunks_concat. apply take_ge. unfold len.
    pose proof (Nat.div_mod_eq (length (dp_rows dp) + b - 1) b) as Hd.
    pose proof (Nat.mod_upper_bound (length (dp_rows dp) + b - 1) b Hb). nia.
Qed.

Lemma batch_nil (dp : DP) (b : nat) (batches : list DP) :
  batch dp b = Ok batches → batches = [] ↔ dp_rows dp = [].
Proof.
  intros (Hb & cs & -> & _ & ->)%batch_chunks.
  pose proof (range_step_nil (len dp) b Hb) as Hn. unfold len in *.
  rewrite <- (length_zero_iff_nil (dp_rows dp)), <- Hn.
  rewrite <- !length_zero_iff_nil, !length_fmap. done.
Qed.

Lemma batch_concat (dp : DP) (b : nat) (batches : list DP) :
  batch dp b = Ok batches → concat (dp_rows <$> batches) = dp_rows dp.
Proof.
  intros (Hb & cs & -> & Hcs & _)%batch_chunks.
  rewrite <- list_fmap_compose, <- Hcs at 1. f_equal.
  by rewrite <- (list_fmap_id cs) at 2.
Qed.

Lemma batch_lookup (dp : DP) (b : nat) (batches : list DP) (t : nat) :
  batch dp b = Ok batches → t * b < len dp →
  batches !! t = Some (with_rows dp (take b (drop (t * b) (dp_rows dp)))).
Proof.
  intros (Hb & cs & -> & _ & ->)%batch_chunks Ht.
  by rewrite !list_lookup_fmap, range_step_lookup.
Qed.

Lemma batch_lookup_inv (dp : DP) (b : nat) (batches : list DP) (t : nat) (bt : DP) :
  batch dp b = Ok batches → batches !! t = Some bt →
  bt = with_rows dp (take b (drop (t * b) (dp_rows dp))).
Proof.
  intros (Hb & cs & -> & _ & ->)%batch_chunks.
  rewrite !list_lookup_fmap. unfold range_step. rewrite list_lookup_fmap.
  destruct (seq 0 _ !! t) as [t'|] eqn:E; [|done].
  apply lookup_seq in E as [-> _]. by intros [= <-].
Qed.

Lemma batch_positive (dp : DP) (b : nat) : 0 < b → is_Ok (batch dp b).
Proof. intros Hb. unfold batch. rewrite decide_False by lia. by eexists. Qed.

Lemma batch_zero (dp : DP) :
  batch dp 0 = Raise (ValueError "range() arg 3 must not be zero").
Proof. done. Qed.

(** Row [t * b + r] of a concatenation whose first [t] pieces have [b] rows *)
Lemma lookup_concat_uniform {A} (ls : list (list A)) (b t r : nat) (l : list A) :
  (∀ t' l', t' < t → ls !! t' = Some l' → length l' = b) →
  ls !! t = Some l → r < length l →
  concat ls !! (t * b + r) = l !! r.
Proof.
  revert t. induction ls as [|l0 ls IH]; intros t Hfull Ht Hr; [done|].
  destruct t as [|t]; cbn in *.
  - injection Ht as ->. by rewrite lookup_app_l.
  - pose proof (Hfull 0 l0 ltac:(lia) eq_refl) as Hl0.
    rewrite lookup_app_r by lia.
    replace (b + t * b + r - length l0) with (t * b + r) by lia.
    apply IH; [|done|done].
    intros t' l' Ht' Hl'. apply (Hfull (S t') l'); [lia|done].
Qed.

(** ** Shapes *)

Lemma sub_matrix_shape (self : SB) columns kwargs (b : DP) :
  honors_contract self columns kwargs →
  has_shape (sub_matrix self columns kwargs b) (len b) (num_slices self).
Proof. intros Hc. unfold sub_matrix. by destruct (Hc b) as (sbs & m & -> & _ & Hm). Qed.

Lemma sub_batches_length (self : SB) columns kwargs (b : DP) :
  honors_contract self columns kwargs →
  length (sub_batches self columns kwargs b) = num_slices self.
Proof. intros Hc. unfold sub_batches. by destruct (Hc b) as (sbs & m & -> & Hk & _). Qed.

Lemma assembled_rows_length (self : SB) columns kwargs (batches : list DP) :
  honors_contract self columns kwargs →
  length (concat ((λ b, nd_rows (sub_matrix self columns kwargs b)) <$> batches))
  = length (concat (dp_rows <$> batches)).
Proof.
  intros Hc. induction batches as [|b batches IH]; [done|].
  cbn. rewrite !length_app, IH. f_equal.
  by destruct (sub_matrix_shape self columns kwargs b Hc) as (-> & _).
Qed.

Lemma assembled_shape (self : SB) dp columns kwargs b (batches : list DP) :
  honors_contract self columns kwargs →
  batch dp b = Ok batches →
  length (assembled strings_as_json new_category new_lineage self columns kwargs batches).1
  = num_slices self
  ∧ has_shape (assembled strings_as_json new_category new_lineage self columns kwargs batches).2
      (len dp) (num_slices self).
Proof.
  intros Hc Hb. unfold assembled, has_shape. cbn [fst snd nd_rows nd_cols].
  rewrite length_imap, (assembled_rows_length _ _ _ _ Hc), (batch_concat _ _ _ Hb).
  repeat split; try done.
  apply Forall_concat, Forall_fmap, Forall_forall. intros bt _.
  by destruct (sub_matrix_shape self columns kwargs bt Hc) as (_ & _ & ?).
Qed.

(** On a dataset that is not empty, a builder that honors the contract and
    whose sub-batches can all be concatenated with [DataPanel()] gets
    [num_slices] slices and a membership matrix of shape
    (len(dp), num_slices). *)
Lemma process_dataset_shape (self : SB) dp columns batch_size num_proc kwargs batches :
  honors_contract self columns kwargs →
  dp_rows dp ≠ [] →
  batch dp (default 32 batch_size) = Ok batches →
  all_fit new_category new_lineage self columns kwargs batches = true →
  ∃ slices M,
    outcome (process_dataset strings_as_json new_category new_lineage concat_error self dp
               columns batch_size num_proc kwargs)
    = Ok (slices, M)
    ∧ length slices = num_slices self
    ∧ has_shape M (len dp) (num_slices self).
Proof.
  intros Hc Hne Hbatch Hfit.
  rewrite (process_dataset_outcome _ _ _ _ _ _ _ Hc Hbatch).
  destruct batches as [|bt batches0] eqn:E.
  { destruct Hne. by apply (batch_nil _ _ _ Hbatch). }
  rewrite <- E in *. rewrite Hfit.
  destruct (assembled_shape self dp columns kwargs _ _ Hc Hbatch).
  eexists _, _. split; [f_equal; apply surjective_pairing|done].
Qed.

(** ** Row order *)

Lemma Forall2_concat_fmap {A B C} (R : A → B → Prop) (f : C → list A) (g : C → list B)
    (l : list C) :
  (∀ x, x ∈ l → Forall2 R (f x) (g x)) →
  Forall2 R (concat (f <$> l)) (concat (g <$> l)).
Proof.
  induction l as [|x l IH]; intros H; [constructor|].
  cbn. apply Forall2_app.
  - apply H, list_elem_of_here.
  - apply IH. intros y Hy. by apply H, list_elem_of_further.
Qed.

(** X25.  What a run that returns has put together, for a builder that
    honors the batch contract: row [i] of the membership matrix is the row
    [process_batch] gave, at the position of example [i], for the batch that
    holds example [i]; the matrix has one row per example; slice [j] holds
    the rows of the [j]-th sub-batches of the batches, in the order of the
    dataset.  Whatever relation between an example and a membership row the
    submatrix of every batch satisfies row by row, the returned matrix
    satisfies it row by row with the dataset. *)
Theorem process_dataset_rows_in_order (self : SB) dp columns batch_size num_proc kwargs
    slices M :
  honors_contract self columns kwargs →
  let b := default 32 batch_size in
  outcome (process_dataset strings_as_json new_category new_lineage concat_error self dp
             columns batch_size num_proc kwargs) = Ok (slices, M) →
  ∃ batches, batch dp b = Ok batches
    ∧ concat (dp_rows <$> batches) = dp_rows dp
    ∧ length (nd_rows M) = len dp
    ∧ (∀ i, i < len dp →
         ∃ bt, batches !! (i `div` b) = Some bt
           ∧ dp_rows bt !! (i `mod` b) = dp_rows dp !! i
           ∧ is_Some (dp_rows dp !! i)
           ∧ nd_rows M !! i
             = nd_rows (sub_matrix self columns kwargs bt) !! (i `mod` b))
    ∧ (∀ j, j < num_slices self →
         ∃ sl, slices !! j = Some sl
           ∧ dp_rows sl = concat (sub_rows self columns kwargs j <$> batches))
    ∧ (∀ R : Example → list bool → Prop,
         (∀ bt, bt ∈ batches →
            Forall2 R (dp_rows bt) (nd_rows (sub_matrix self columns kwargs bt))) →
         Forall2 R (dp_rows dp) (nd_rows M)).
Proof.
  intros Hc b Hrun.
  destruct (decide (b = 0)) as [Hb0|Hb0].
  { unfold process_dataset in Hrun. revert Hrun. py_outcome. fold b. rewrite Hb0.
    by rewrite batch_zero. }
  destruct (batch_positive dp b ltac:(lia)) as [batches Hbatch].
  rewrite (process_dataset_outcome _ _ _ _ _ _ _ Hc Hbatch) in Hrun.
  destruct batches as [|bt0 batches0] eqn:E; [done|]. rewrite <- E in *. clear E.
  destruct (all_fit _ _ _ _ _ batches); [|done].
  injection Hrun as <- <-.
  destruct (assembled_shape self dp columns kwargs _ _ Hc Hbatch) as [_ (Hlen & _)].
  exists batches. split; [done|]. split; [by eapply batch_concat|].
  split; [done|]. split.
  - intros i Hi.
    pose proof (Nat.div_mod_eq i b) as Hdm.
    pose proof (Nat.mod_upper_bound i b Hb0) as Hr.
    assert (i `div` b * b + i `mod` b = i) as Hi' by lia.
    assert (i `div` b * b < len dp) as Ht by lia.
    eexists. split; [by apply (batch_lookup dp b)|].
    assert (dp_rows (with_rows dp (take b (drop (i `div` b * b) (dp_rows dp))))
              !! (i `mod` b) = dp_rows dp !! i) as Hrow.
    { cbn. rewrite lookup_take_lt by done. rewrite lookup_drop. by rewrite Hi'. }
    split; [done|]. split; [by apply lookup_lt_is_Some|].
    cbn [assembled snd nd_rows]. rewrite <- Hi' at 1.
    apply lookup_concat_uniform.
    + intros t' l' Ht' Hl'. rewrite list_lookup_fmap in Hl'.
      destruct (batches !! t') as [bt'|] eqn:Ebt'; [|done]. injection Hl' as <-.
      destruct (sub_matrix_shape self columns kwargs bt' Hc) as (-> & _).
      rewrite (batch_lookup_inv _ _ _ _ _ Hbatch Ebt'). unfold len. cbn.
      rewrite length_take, length_drop. unfold len in Hi. nia.
    + by rewrite list_lookup_fmap, (batch_lookup dp b batches _ Hbatch Ht).
    + destruct (sub_matrix_shape self columns kwargs
                  (with_rows dp (take b (drop (i `div` b * b) (dp_rows dp)))) Hc)
        as (-> & _).
      apply lookup_lt_is_Some. rewrite Hrow. by apply lookup_lt_is_Some.
  - split.
    + intros j Hj. unfold num_slices in Hj.
      destruct (lookup_lt_is_Some_2 _ _ Hj) as [identifier Hid].
      eexists. cbn [assembled fst]. rewrite list_lookup_imap, Hid. done.
    + intros R HR. rewrite <- (batch_concat _ _ _ Hbatch). cbn [assembled snd nd_rows].
      by apply Forall2_concat_fmap.
Qed.

(** ** C1 *)

Lemma same_columns_seed (sb : DP) :
  same_columns (DataPanel_empty new_category new_lineage) sb
  = bool_decide (dp_column_names sb = []).
Proof.
  unfold same_columns. cbn [DataPanel_empty dp_column_names].
  apply bool_decide_ext. destruct (dp_column_names sb) as [|c cs]; [done|].
  split; [|done]. cbn. set_solver.
Qed.

Lemma all_fit_false (self : SB) columns kwargs (batches : list DP) (bt : DP) (j : nat)
    (sb : DP) :
  honors_contract self columns kwargs →
  bt ∈ batches →
  sub_batches self columns kwargs bt !! j = Some sb →
  dp_column_names sb ≠ [] →
  all_fit new_category new_lineage self columns kwargs batches = false.
Proof.
  intros Hc Hbt Hsb Hcols. apply not_true_is_false. intros Hfit.
  unfold all_fit in Hfit. rewrite forallb_forall in Hfit.
  assert (j < length (identifiers self)) as Hj.
  { apply lookup_lt_Some in Hsb.
    by rewrite (sub_batches_length self columns kwargs bt Hc) in Hsb. }
  specialize (Hfit j). rewrite in_seq in Hfit. specialize (Hfit ltac:(lia)).
  rewrite forallb_forall in Hfit. specialize (Hfit bt).
  rewrite <- list_elem_of_In in Hfit. specialize (Hfit Hbt).
  unfold sub_fits in Hfit. rewrite Hsb in Hfit. cbn [from_option] in Hfit.
  rewrite same_columns_seed in Hfit. by apply bool_decide_eq_true in Hfit.
Qed.

(** C1, at the builders that break it.  Every slice accumulator starts with
    [DataPanel()], which has no column.  As soon as one sub-batch that
    [process_batch] gave for a batch of the dataset has a column, as any
    sub-batch cut out of the dataset has, [mosaic.concat] refuses the
    accumulator that sub-batch went to: [process_dataset] raises the error of
    [mosaic.concat] and returns neither the membership matrix nor a slice,
    although the builder honors the batch contract. *)
Theorem C1_concat_refuses_the_seed (self : SB) dp columns batch_size num_proc kwargs
    (batches : list DP) (bt : DP) (j : nat) (sb : DP) :
  honors_contract self columns kwargs →
  batch dp (default 32 batch_size) = Ok batches →
  bt ∈ batches →
  sub_batches self columns kwargs bt !! j = Some sb →
  dp_column_names sb ≠ [] →
  outcome (process_dataset strings_as_json new_category new_lineage concat_error self dp
             columns batch_size num_proc kwargs)
  = Raise concat_error.
Proof.
  intros Hc Hbatch Hbt Hsb Hcols.
  rewrite (process_dataset_outcome _ _ _ _ _ _ _ Hc Hbatch).
  rewrite (all_fit_false self columns kwargs batches bt j sb Hc Hbt Hsb Hcols).
  destruct batches as [|b0 rest]; [by apply elem_of_nil in Hbt|done].
Qed.

(** ** The sample builders honor the contract *)

Lemma nd_T_length (m : ndarray) : length (nd_T m) = nd_cols m.
Proof. unfold nd_T. by rewrite length_fmap, length_seq. Qed.

Lemma nd_T_lookup (m : ndarray) (j : nat) :
  j < nd_cols m → nd_T m !! j = Some (nd_column m j).
Proof. intros Hj. unfold nd_T. by rewrite list_lookup_fmap, lookup_seq_lt. Qed.

Lemma compress_app {A} (d1 d2 : list A) (s1 s2 : list bool) :
  length s1 = length d1 →
  compress (d1 ++ d2) (s1 ++ s2) = compress d1 s1 ++ compress d2 s2.
Proof.
  revert s1. induction d1 as [|d d1 IH]; intros [|s s1] Hlen; try done.
  cbn in *. rewrite IH by lia. by destruct s.
Qed.

Lemma filter_builder_honors (ids : list Identifier) category
    (preds : list (Example → bool)) (a : Attrs) columns (kwargs : Kwargs) :
  length preds = length ids →
  honors_contract (Raw:=Raw) (filter_builder ids category preds a) columns kwargs.
Proof.
  intros Hlen b.
  exists ((λ s, with_rows b (compress (dp_rows b) s))
            <$> nd_T (membership_of preds (dp_rows b))),
         (membership_of preds (dp_rows b)).
  split; [done|]. unfold num_slices. cbn [identifiers filter_builder].
  split; [by rewrite length_fmap, nd_T_length|].
  unfold has_shape, len. cbn. rewrite length_fmap. repeat split; [done|].
  apply Forall_fmap, Forall_forall. intros x _. cbn. by rewrite length_fmap.
Qed.

Lemma filter_builder_sub_rows (ids : list Identifier) category
    (preds : list (Example → bool)) (a : Attrs) columns (kwargs : Kwargs)
    (j : nat) (b : DP) :
  sub_rows (Raw:=Raw) (filter_builder ids category preds a) columns kwargs j b
  = if decide (j < length preds)
    then compress (dp_rows b) (nd_column (membership_of preds (dp_rows b)) j)
    else [].
Proof.
  unfold sub_rows, sub_batches.
  cbn [process_batch filter_builder filter_process_batch]. rewrite list_lookup_fmap.
  case_decide as Hj.
  - by rewrite nd_T_lookup.
  - rewrite (lookup_ge_None_2 (nd_T _)); [done|]. rewrite nd_T_length. cbn. lia.
Qed.

Lemma filter_builder_example_wise (ids : list Identifier) category
    (preds : list (Example → bool)) (a : Attrs) columns (kwargs : Kwargs) :
  example_wise (Raw:=Raw) (filter_builder ids category preds a) columns kwargs.
Proof.
  intros dp r1 r2. split.
  - intros j. rewrite !filter_builder_sub_rows. case_decide; [|done].
    cbn. unfold nd_column. cbn. rewrite !fmap_app.
    apply compress_app. by rewrite !length_fmap.
  - split; [unfold sub_matrix; cbn; by rewrite fmap_app|].
    intros j. unfold sub_columns, sub_batches.
    cbn [process_batch filter_builder filter_process_batch]. rewrite !list_lookup_fmap.
    destruct (decide (j < length preds)) as [Hj|Hj].
    + by rewrite !nd_T_lookup.
    + rewrite !(lookup_ge_None_2 (nd_T _)); [done|..]; rewrite nd_T_length; cbn; lia.
Qed.

Lemma marker_builder_honors (ids : list Identifier) category
    (preds : list (Example → bool)) (a : Attrs) columns (kwargs : Kwargs) :
  length preds = length ids →
  honors_contract (Raw:=Raw) (marker_builder new_category new_lineage ids category preds a)
    columns kwargs.
Proof.
  intros Hlen b. eexists _, _. split; [done|].
  unfold num_slices. cbn [identifiers marker_builder].
  split; [by rewrite length_fmap|].
  unfold has_shape, len. cbn. rewrite length_fmap. repeat split; [done|].
  apply Forall_fmap, Forall_forall. intros x _. cbn. by rewrite length_fmap.
Qed.

Lemma marker_builder_sub_batches (ids : list Identifier) category
    (preds : list (Example → bool)) (a : Attrs) columns (kwargs : Kwargs) (b : DP) :
  sub_batches (Raw:=Raw) (marker_builder new_category new_lineage ids category preds a)
    columns kwargs b
  = (λ _, DataPanel_empty new_category new_lineage) <$> preds.
Proof. done. Qed.

Lemma marker_builder_example_wise (ids : list Identifier) category
    (preds : list (Example → bool)) (a : Attrs) columns (kwargs : Kwargs) :
  example_wise (Raw:=Raw) (marker_builder new_category new_lineage ids category preds a)
    columns kwargs.
Proof.
  intros dp r1 r2. unfold sub_rows, sub_columns.
  rewrite !marker_builder_sub_batches. split; [|split].
  - intros j. rewrite list_lookup_fmap. by destruct (preds !! j).
  - unfold sub_matrix. cbn. by rewrite fmap_app.
  - done.
Qed.

Lemma marker_builder_columns (ids : list Identifier) category
    (preds : list (Example → bool)) (a : Attrs) columns (kwargs : Kwargs) (j : nat)
    (b : DP) :
  sub_columns (Raw:=Raw) (marker_builder new_category new_lineage ids category preds a)
    columns kwargs j b = ∅.
Proof.
  unfold sub_columns. rewrite marker_builder_sub_batches, list_lookup_fmap.
  by destruct (preds !! j).
Qed.

Lemma head_builder_honors (identifier : Identifier) category (a : Attrs)
    columns (kwargs : Kwargs) :
  honors_contract (Example:=Example) (Raw:=Raw)
    (head_builder new_category new_lineage identifier category a) columns kwargs.
Proof.
  intros b. eexists _, _. split; [done|]. unfold num_slices. cbn.
  split; [done|]. unfold has_shape, len. cbn. rewrite length_imap.
  repeat split.
  apply Forall_forall. intros r [i [x [-> _]]]%elem_of_lookup_imap. done.
Qed.

(** ** Batch size and example-wise transformers *)

Lemma with_rows_self (dp : DP) : with_rows dp (dp_rows dp) = dp.
Proof. by destruct dp. Qed.

Lemma app_self_nil {A} (l : list A) : l = l ++ l → l = [].
Proof.
  intros H. apply (f_equal length) in H. rewrite length_app in H.
  apply length_zero_iff_nil. lia.
Qed.

Lemma example_wise_rows (self : SB) columns kwargs (dp : DP) (j : nat)
    (cs : list (list Example)) :
  example_wise self columns kwargs →
  concat (sub_rows self columns kwargs j <$> (with_rows dp <$> cs))
  = sub_rows self columns kwargs j (with_rows dp (concat cs)).
Proof.
  intros Hew. induction cs as [|c cs IH]; cbn.
  - symmetry. apply app_self_nil. destruct (Hew dp [] []) as [H _]. exact (H j).
  - rewrite IH. destruct (Hew dp c (concat cs)) as [H _]. by rewrite (H j).
Qed.

Lemma example_wise_matrix (self : SB) columns kwargs (dp : DP)
    (cs : list (list Example)) :
  example_wise self columns kwargs →
  concat ((λ b, nd_rows (sub_matrix self columns kwargs b)) <$> (with_rows dp <$> cs))
  = nd_rows (sub_matrix self columns kwargs (with_rows dp (concat cs))).
Proof.
  intros Hew. induction cs as [|c cs IH]; cbn.
  - symmetry. apply app_self_nil. destruct (Hew dp [] []) as (_ & H & _). exact H.
  - rewrite IH. destruct (Hew dp c (concat cs)) as (_ & H & _). by rewrite H.
Qed.

Lemma assembled_whole (self : SB) dp columns kwargs b (batches : list DP) :
  example_wise self columns kwargs →
  batch dp b = Ok batches →
  assembled strings_as_json new_category new_lineage self columns kwargs batches
  = assembled strings_as_json new_category new_lineage self columns kwargs [dp].
Proof.
  intros Hew (Hb & cs & -> & Hcs & _)%batch_chunks. unfold assembled. f_equal.
  - apply imap_ext. intros j identifier _. cbn beta. f_equal.
    rewrite (example_wise_rows _ _ _ _ _ _ Hew), Hcs, with_rows_self.
    cbn. by rewrite app_nil_r.
  - f_equal. rewrite (example_wise_matrix _ _ _ _ _ Hew), Hcs, with_rows_self.
    cbn. by rewrite app_nil_r.
Qed.

Lemma sub_fits_columns (self : SB) columns kwargs (j : nat) (b : DP) :
  sub_fits new_category new_lineage self columns kwargs j b
  = bool_decide (sub_columns self columns kwargs j b = ∅).
Proof.
  unfold sub_fits, sub_columns.
  destruct (sub_batches self columns kwargs b !! j) as [sb|]; cbn [from_option].
  - unfold same_columns. by apply bool_decide_ext.
  - by rewrite bool_decide_eq_true_2.
Qed.

Lemma example_wise_fits (self : SB) columns kwargs (dp : DP) (j : nat)
    (c : list Example) (cs : list (list Example)) :
  example_wise self columns kwargs →
  forallb (sub_fits new_category new_lineage self columns kwargs j)
    (with_rows dp <$> c :: cs)
  = sub_fits new_category new_lineage self columns kwargs j dp.
Proof.
  intros Hew.
  assert (∀ r, sub_fits new_category new_lineage self columns kwargs j (with_rows dp r)
               = sub_fits new_category new_lineage self columns kwargs j dp) as Hsame.
  { intros r. rewrite !sub_fits_columns. apply bool_decide_ext.
    destruct (Hew dp r (dp_rows dp)) as (_ & _ & H). by rewrite (H j), with_rows_self. }
  rewrite fmap_cons. cbn [forallb]. rewrite Hsame.
  destruct (sub_fits _ _ _ _ _ j dp); [|done]. cbn [andb].
  induction cs as [|c' cs IH]; [done|].
  rewrite fmap_cons. cbn [forallb]. by rewrite Hsame, IH.
Qed.

Lemma all_fit_whole (self : SB) dp columns kwargs b (batches : list DP) :
  example_wise self columns kwargs →
  batch dp b = Ok batches → batches ≠ [] →
  all_fit new_category new_lineage self columns kwargs batches
  = all_fit new_category new_lineage self columns kwargs [dp].
Proof.
  intros Hew (Hb & cs & -> & _ & _)%batch_chunks Hne. unfold all_fit.
  apply forallb_pointwise. intros j.
  destruct cs as [|c cs]; [done|].
  rewrite (example_wise_fits _ _ _ _ _ _ _ Hew). cbn [forallb]. by rewrite andb_true_r.
Qed.

Lemma all_fit_columns (self : SB) columns kwargs (dp : DP) :
  (∀ j, sub_columns self columns kwargs j dp = ∅) →
  all_fit new_category new_lineage self columns kwargs [dp] = true.
Proof.
  intros Hcols. unfold all_fit. apply forallb_forall. intros j _.
  cbn [forallb]. rewrite sub_fits_columns, Hcols. by rewrite bool_decide_eq_true_2.
Qed.

(** C3, as amended.  For a builder that honors the contract and treats its
    batches example by example, any two positive batch sizes give the same
    outcome of [process_dataset] on the same dataset and columns: the same
    slices and the same membership matrix when it returns, the same
    exception when it raises.  It returns on a dataset that is not empty
    when the sub-batches the builder gives have no column. *)
Theorem C3_batch_size_not_observable (self : SB) dp columns b1 b2 num_proc kwargs :
  honors_contract self columns kwargs →
  example_wise self columns kwargs →
  0 < b1 → 0 < b2 →
  outcome (process_dataset strings_as_json new_category new_lineage concat_error self dp
             columns (Some b1) num_proc kwargs)
  = outcome (process_dataset strings_as_json new_category new_lineage concat_error self dp
               columns (Some b2) num_proc kwargs)
  ∧ (dp_rows dp ≠ [] → (∀ j, sub_columns self columns kwargs j dp = ∅) →
     ∃ slices M,
       outcome (process_dataset strings_as_json new_category new_lineage concat_error self
                  dp columns (Some b1) num_proc kwargs)
       = Ok (slices, M)).
Proof.
  intros Hc Hew Hb1 Hb2.
  destruct (batch_positive dp b1 Hb1) as [batches1 H1].
  destruct (batch_positive dp b2 Hb2) as [batches2 H2].
  rewrite (process_dataset_outcome self dp columns (Some b1) num_proc kwargs _ Hc H1).
  rewrite (process_dataset_outcome self dp columns (Some b2) num_proc kwargs _ Hc H2).
  pose proof (batch_nil _ _ _ H1) as Hn1. pose proof (batch_nil _ _ _ H2) as Hn2.
  rewrite (assembled_whole _ _ _ _ _ _ Hew H1), (assembled_whole _ _ _ _ _ _ Hew H2).
  destruct batches1 as [|x1 l1] eqn:E1, batches2 as [|x2 l2] eqn:E2.
  - split; [done|]. intros Hne. destruct Hne. by apply Hn1.
  - assert (x2 :: l2 = []) by (by apply Hn2, Hn1). done.
  - assert (x1 :: l1 = []) by (by apply Hn1, Hn2). done.
  - rewrite (all_fit_whole _ _ _ _ _ _ Hew H1), (all_fit_whole _ _ _ _ _ _ Hew H2) by done.
    split; [done|]. intros _ Hcols. rewrite (all_fit_columns _ _ _ _ Hcols).
    destruct (assembled strings_as_json new_category new_lineage self columns kwargs [dp])
      as [slices M].
    by exists slices, M.
Qed.

(** ** The empty dataset *)

Lemma batch_empty (dp : DP) (b : nat) : batch (with_rows dp []) (S b) = Ok [].
Proof.
  unfold batch. rewrite decide_False by lia. unfold range_step, len. cbn [with_rows dp_rows length].
  replace ((0 + S b - 1) `div` S b) with 0; [done|].
  symmetry. apply Nat.div_small. lia.
Qed.

(** C2, at the dataset that breaks it.  With no example in the dataset no
    batch is produced, nothing is appended to the list of membership
    submatrices, and [np.concatenate] raises: whatever the builder and the
    positive batch size, [process_dataset] returns neither slices nor a
    matrix. *)
Theorem C2_empty_dataset_raises (self : SB) dp columns b num_proc kwargs :
  outcome (process_dataset strings_as_json new_category new_lineage concat_error
             self (with_rows dp []) columns (Some (S b))
             num_proc kwargs)
  = Raise (ValueError "need at least one array to concatenate")
  ∧ outcome (process_dataset strings_as_json new_category new_lineage concat_error
               self (with_rows dp []) columns None
               num_proc kwargs)
    = Raise (ValueError "need at least one array to concatenate").
Proof.
  split; unfold process_dataset; py_outcome; cbn [from_option id];
    rewrite batch_empty; py_outcome; cbn [process_batches]; py_outcome; done.
Qed.

(** ** What the pipeline calls, and in which order *)

Lemma processed_batches_app (t1 t2 : list (@Event Example Identifier)) :
  processed_batches (t1 ++ t2) = processed_batches t1 ++ processed_batches t2.
Proof. apply omap_app. Qed.

Lemma prepared_batches_app (t1 t2 : list (@Event Example Identifier)) :
  prepared_batches (t1 ++ t2) = prepared_batches t1 ++ prepared_batches t2.
Proof. apply omap_app. Qed.

Lemma prerequisites_handler_trace (self : SB) (dp : input) :
  trace (prerequisites_handler self dp) = EvAvailable ∘ prereq_name <$> prerequisites self
  ∧ processed_batches (trace (prerequisites_handler self dp)) = []
  ∧ prepared_batches (trace (prerequisites_handler self dp)) = [].
Proof.
  split; [done|]. unfold prerequisites_handler, trace. cbn [fst].
  induction (prerequisites self) as [|p ps IH]; [done|]. exact IH.
Qed.

Lemma process_batches_cons (self : SB) columns kwargs b rest slices ms :
  process_batches self columns kwargs (b :: rest) slices ms
  = match process_batch self (attrs self) b columns kwargs with
    | Ok (Some sbs, sm) =>
        let '(t, r) :=
          process_batches self columns kwargs rest (zip_append slices sbs) (ms ++ [sm]) in
        (EvProcess b :: EvPrint (Some sbs) sm :: t, r)
    | Ok (None, sm) =>
        ([EvProcess b; EvPrint None sm], Raise (TypeError "'NoneType' object is not iterable"))
    | Raise e => ([EvProcess b], Raise e)
    end.
Proof.
  cbn [process_batches]. py_unfold. unfold py_bind, tell, lift, raise, py_ret.
  destruct (process_batch self (attrs self) b columns kwargs) as [[[sbs|] sm]|e]; try done.
  cbn. by destruct (process_batches _ _ _ rest _ _).
Qed.

Lemma process_batches_trace (self : SB) columns kwargs batches slices ms :
  prepared_batches (trace (process_batches self columns kwargs batches slices ms)) = []
  ∧ processed_batches (trace (process_batches self columns kwargs batches slices ms))
    `prefix_of` batches
  ∧ (is_Ok (outcome (process_batches self columns kwargs batches slices ms)) →
     processed_batches (trace (process_batches self columns kwargs batches slices ms))
     = batches).
Proof.
  revert slices ms. induction batches as [|b rest IH]; intros slices ms.
  { cbn. repeat split; done. }
  rewrite process_batches_cons.
  destruct (process_batch self (attrs self) b columns kwargs) as [[[sbs|] sm]|e].
  - specialize (IH (zip_append slices sbs) (ms ++ [sm])).
    destruct (process_batches self columns kwargs rest _ _) as [t r].
    cbn in *. destruct IH as (IH1 & IH2 & IH3). repeat split.
    + done.
    + by apply prefix_cons.
    + intros Hr. f_equal. by apply IH3.
  - cbn. repeat split; [apply prefix_cons, prefix_nil|]. by intros [? ?].
  - cbn. repeat split; [apply prefix_cons, prefix_nil|]. by intros [? ?].
Qed.

Lemma prepare_batches_cons (self : SB) columns kwargs b rest a :
  prepare_batches self columns kwargs (b :: rest) a
  = match prepare_batch self a b columns kwargs with
    | (a', Ok _) =>
        let '(t, r) := prepare_batches self columns kwargs rest a' in (EvPrepare b :: t, r)
    | (a', Raise (NotImplementedError _)) => ([EvPrepare b], Ok a')
    | (_, Raise e) => ([EvPrepare b], Raise e)
    end.
Proof.
  cbn [prepare_batches]. py_unfold. unfold py_bind, tell, raise, py_ret.
  destruct (prepare_batch self a b columns kwargs) as [a' [u|e]].
  - cbn. by destruct (prepare_batches self columns kwargs rest a').
  - by destruct e.
Qed.

Lemma prepare_batches_trace (self : SB) columns kwargs batches a :
  processed_batches (trace (prepare_batches self columns kwargs batches a)) = []
  ∧ prepared_batches (trace (prepare_batches self columns kwargs batches a))
    `prefix_of` batches.
Proof.
  revert a. induction batches as [|b rest IH]; intros a; [done|].
  rewrite prepare_batches_cons.
  destruct (prepare_batch self a b columns kwargs) as [a' [u|e]].
  - specialize (IH a'). destruct (prepare_batches self columns kwargs rest a') as [t r].
    cbn in *. destruct IH as [IH1 IH2]. split; [done|]. by apply prefix_cons.
  - destruct e; cbn; (split; [done|apply prefix_cons, prefix_nil]).
Qed.

Lemma prepare_batches_all (self : SB) columns kwargs batches a :
  (∀ a b, is_Ok (prepare_batch self a b columns kwargs).2) →
  prepare_batches self columns kwargs batches a
  = (EvPrepare <$> batches, Ok (prepared_attrs self columns kwargs batches a)).
Proof.
  intros Hok. revert a. induction batches as [|b rest IH]; intros a; [done|].
  rewrite prepare_batches_cons. cbn [prepared_attrs foldl].
  destruct (Hok a b) as [u Hu].
  destruct (prepare_batch self a b columns kwargs) as [a' r]. cbn [fst snd] in *.
  subst r. by rewrite IH.
Qed.

Lemma prepared_batches_fmap (batches : list DP) :
  prepared_batches (EvPrepare <$> batches) = batches.
Proof. induction batches as [|b rest IH]; [done|]. cbn. f_equal. exact IH. Qed.

Lemma prepare_dataset_all (self : SB) (dp : DP) columns batch_size kwargs
    (batches : list DP) :
  (∀ a b, is_Ok (prepare_batch self a b columns kwargs).2) →
  batch (format dp (columns
           ++ _filter_prerequisite_columns self columns (dp_column_names dp)))
    (default 32 batch_size) = Ok batches →
  prepare_dataset self dp columns batch_size kwargs
  = (EvPrepare <$> batches, Ok (prepared_attrs self columns kwargs batches (attrs self))).
Proof.
  intros Hok Hb. unfold prepare_dataset. py_unfold. unfold py_bind, lift.
  by rewrite Hb, (prepare_batches_all _ _ _ _ _ Hok).
Qed.

Lemma prepare_dataset_trace (self : SB) dp columns batch_size kwargs :
  processed_batches (trace (prepare_dataset self dp columns batch_size kwargs)) = []
  ∧ ∀ batches,
      batch (format dp (columns
               ++ _filter_prerequisite_columns self columns (dp_column_names dp)))
        (default 32 batch_size) = Ok batches →
      prepared_batches (trace (prepare_dataset self dp columns batch_size kwargs))
      `prefix_of` batches.
Proof.
  unfold prepare_dataset. py_unfold. unfold py_bind, lift.
  destruct (batch _ _) as [batches|e]; [|split; [done|by intros]].
  pose proof (prepare_batches_trace self columns kwargs batches (attrs self)) as [H1 H2].
  destruct (prepare_batches self columns kwargs batches (attrs self)) as [t r].
  cbn in *. split; [done|]. by intros ? [= <-].
Qed.

Lemma trace_bind_lift {A B} (r : result A) (f : A → PyE B) :
  trace (py_bind (lift r) f) = match r with Ok a => trace (f a) | Raise _ => [] end.
Proof. rewrite trace_bind. by destruct r. Qed.

Lemma process_dataset_trace_eq (self : SB) dp columns batch_size num_proc kwargs :
  trace (process_dataset strings_as_json new_category new_lineage concat_error
           self dp columns batch_size num_proc kwargs)
  = match batch dp (default 32 batch_size) with
    | Ok batches =>
        trace (process_batches self columns kwargs batches
                 (replicate (length (identifiers self))
                    [DataPanel_empty new_category new_lineage]) [])
    | Raise _ => []
    end.
Proof.
  unfold process_dataset. py_unfold. rewrite trace_bind_lift.
  destruct (batch dp (default 32 batch_size)) as [batches|e]; [|done].
  rewrite trace_bind.
  destruct (outcome (process_batches _ _ _ _ _ _)) as [[sl ms]|e]; [|by rewrite app_nil_r].
  rewrite trace_bind_lift. destruct (np_concatenate ms); [|by rewrite app_nil_r].
  rewrite trace_bind_lift.
  destruct (concat_each concat_error sl) as [sl'|]; [|by rewrite app_nil_r].
  rewrite trace_bind_lift. destruct (tag_slices _ _ _ _ sl'); by rewrite app_nil_r.
Qed.

Lemma process_dataset_ok_inv (self : SB) dp columns batch_size num_proc kwargs :
  is_Ok (outcome (process_dataset strings_as_json new_category new_lineage concat_error
                    self dp columns batch_size num_proc
                    kwargs)) →
  ∃ batches, batch dp (default 32 batch_size) = Ok batches
    ∧ is_Ok (outcome (process_batches self columns kwargs batches
                        (replicate (length (identifiers self))
                           [DataPanel_empty new_category new_lineage]) [])).
Proof.
  unfold process_dataset. py_outcome.
  destruct (batch dp (default 32 batch_size)) as [batches|e]; [|by intros [? ?]].
  py_outcome. intros Hok. exists batches. split; [done|].
  destruct (outcome (process_batches _ _ _ _ _ _)) as [x|e]; [by eexists|].
  by destruct Hok.
Qed.

Lemma process_dataset_trace (self : SB) dp columns batch_size num_proc kwargs batches :
  let run := process_dataset strings_as_json new_category new_lineage concat_error
               self dp columns batch_size num_proc kwargs in
  batch dp (default 32 batch_size) = Ok batches →
  prepared_batches (trace run) = []
  ∧ processed_batches (trace run) `prefix_of` batches
  ∧ (is_Ok (outcome run) → processed_batches (trace run) = batches).
Proof.
  intros run Hb. subst run. rewrite process_dataset_trace_eq, Hb.
  pose proof (process_batches_trace self columns kwargs batches
                (replicate (length (identifiers self))
                   [DataPanel_empty new_category new_lineage]) [])
    as (H1 & H2 & H3).
  repeat split; [done..|].
  intros (batches' & Hb' & Hok)%process_dataset_ok_inv.
  rewrite Hb in Hb'. injection Hb' as <-. by apply H3.
Qed.

Lemma process_batches_returns (self : SB) columns kwargs (batches : list DP) slices ms :
  (∀ b, b ∈ batches → ∃ sbs sm,
     process_batch self (attrs self) b columns kwargs = Ok (Some sbs, sm)) →
  is_Ok (outcome (process_batches self columns kwargs batches slices ms)).
Proof.
  revert slices ms. induction batches as [|b rest IH]; intros slices ms Hall.
  { by eexists. }
  rewrite process_batches_cons.
  destruct (Hall b (list_elem_of_here _ _)) as (sbs & sm & ->).
  specialize (IH (zip_append slices sbs) (ms ++ [sm])
                (λ b' Hb', Hall b' (list_elem_of_further _ _ _ Hb'))).
  by destruct (process_batches self columns kwargs rest _ _) as [t r].
Qed.

(** Every batch reaches [process_batch] when [process_batch] gives a list of
    sub-batches for each, whatever happens to the run afterwards. *)
Lemma process_dataset_processes_all (self : SB) dp columns batch_size num_proc kwargs
    (batches : list DP) :
  batch dp (default 32 batch_size) = Ok batches →
  (∀ b, b ∈ batches → ∃ sbs sm,
     process_batch self (attrs self) b columns kwargs = Ok (Some sbs, sm)) →
  processed_batches
    (trace (process_dataset strings_as_json new_category new_lineage concat_error self dp
              columns batch_size num_proc kwargs))
  = batches.
Proof.
  intros Hb Hall. rewrite process_dataset_trace_eq, Hb.
  apply process_batches_trace. by apply process_batches_returns.
Qed.

(** ** The base class *)

Lemma base_process_batches (ids : list Identifier) category
    (prereqs : list (@Prerequisite Example Identifier Raw)) (a : Attrs) columns
    (kwargs : Kwargs) (batches : list DP) slices ms :
  ∃ slices',
    outcome (process_batches (Raw:=Raw) (base_builder ids category prereqs a) columns
               kwargs batches slices ms)
    = Ok (slices', ms ++ replicate (length batches) None).
Proof.
  revert slices ms. induction batches as [|b rest IH]; intros slices ms.
  { eexists. cbn. by rewrite app_nil_r. }
  rewrite process_batches_cons. cbn [process_batch base_builder process_batch_base].
  destruct (IH (zip_append slices [b]) (ms ++ [None])) as [slices' Hrest].
  destruct (process_batches _ _ _ rest _ _) as [t r]. cbn in *. subst r.
  exists slices'. by rewrite <- app_assoc.
Qed.

(** A builder that overrides nothing never gets through [process_dataset]:
    the membership submatrices it hands over are all [None]. *)
Lemma base_builder_never_returns (ids : list Identifier) category
    (prereqs : list (@Prerequisite Example Identifier Raw)) (a : Attrs) (dp : DP) columns
    batch_size num_proc (kwargs : Kwargs) :
  ∃ e, outcome (process_dataset (Raw:=Raw) strings_as_json new_category new_lineage
                  concat_error (base_builder ids category prereqs a) dp columns batch_size
                  num_proc kwargs) = Raise e.
Proof.
  unfold process_dataset. py_outcome.
  destruct (batch dp (default 32 batch_size)) as [batches|e]; [|by eexists].
  py_outcome.
  match goal with
  | |- context [process_batches ?self _ _ _ ?slices []] =>
      destruct (base_process_batches ids category prereqs a columns kwargs batches
                  slices []) as [slices' ->]
  end.
  py_outcome. destruct batches; cbn; by eexists.
Qed.

(** ** C6 *)

Lemma pending_spec (self : SB) (dp : input) (q : Prerequisite) :
  q ∈ List.filter (λ p, negb (available p dp)) (prerequisites self)
  ↔ q ∈ prerequisites self ∧ available q dp = false.
Proof.
  rewrite !list_elem_of_In, filter_In. by rewrite negb_true_iff.
Qed.

(** C6.  When a declared prerequisite reports unavailable on what the
    builder is called with, the call raises the [RuntimeError] whose message
    prints the set of unavailable prerequisites (exactly the declared ones
    that report unavailable), and the only calls it has made are the
    availability checks: no batch was handed to [prepare_batch] or to
    [process_batch], and nothing is returned. *)
Theorem C6_unmet_prerequisite_stops_the_call (self : SB) (dp : input) columns
    batch_size num_proc kwargs (p : Prerequisite) :
  p ∈ prerequisites self → available p dp = false →
  let pending := List.filter (λ q, negb (available q dp)) (prerequisites self) in
  let run :=
    call strings_as_json new_category new_lineage concat_error DataPanel_of_raw
      self dp columns batch_size num_proc kwargs in
  p ∈ pending
  ∧ (∀ q, q ∈ pending ↔ q ∈ prerequisites self ∧ available q dp = false)
  ∧ outcome run
    = Raise (RuntimeError
        ("Cannot run SliceBuilder, prerequisites " +:+ set_repr pending
         +:+ " not satisfied."))
  ∧ trace run = EvAvailable ∘ prereq_name <$> prerequisites self
  ∧ processed_batches (trace run) = []
  ∧ prepared_batches (trace run) = [].
Proof.
  intros Hp Hun pending run.
  assert (p ∈ pending) as Hpending by (by apply pending_spec).
  split; [done|]. split; [apply pending_spec|].
  assert (outcome (prerequisites_handler self dp)
          = Raise (RuntimeError
              ("Cannot run SliceBuilder, prerequisites " +:+ set_repr pending
               +:+ " not satisfied."))) as Hraise.
  { unfold prerequisites_handler. cbn. fold pending.
    destruct pending; [by apply elem_of_nil in Hpending|done]. }
  destruct (prerequisites_handler_trace self dp) as (Ht & Hproc & Hprep).
  subst run. unfold call. py_unfold.
  rewrite outcome_bind, trace_bind, Hraise, app_nil_r. by rewrite Hproc, Hprep.
Qed.

(** ** C10 *)

Lemma call_panel_trace (self : SB) (p : DP) columns batch_size num_proc kwargs batches :
  let run := call_panel strings_as_json new_category new_lineage concat_error
               self p columns batch_size num_proc kwargs in
  batch p 32 = Ok batches →
  processed_batches (trace run) `prefix_of` batches
  ∧ (is_Ok (outcome run) → processed_batches (trace run) = batches)
  ∧ ∀ prepared,
      batch (format p (columns
               ++ _filter_prerequisite_columns self columns (dp_column_names p)))
        batch_size = Ok prepared →
      prepared_batches (trace run) `prefix_of` prepared.
Proof.
  intros run Hb. subst run. unfold call_panel. py_unfold.
  rewrite trace_bind, outcome_bind, processed_batches_app, prepared_batches_app.
  destruct (prepare_dataset_trace self p columns (Some batch_size) kwargs) as [Hproc Hprep].
  rewrite Hproc, app_nil_l.
  destruct (outcome (prepare_dataset self p columns (Some batch_size) kwargs)) as [a|e].
  - destruct (process_dataset_trace (with_attrs self a) p columns None num_proc kwargs
                batches Hb) as (H1 & H2 & H3).
    rewrite H1, app_nil_r. split; [done|]. split; [done|]. exact Hprep.
  - rewrite app_nil_r. split; [apply prefix_nil|]. split; [by intros [? ?]|].
    exact Hprep.
Qed.

Lemma call_panel_run (self : SB) (p : DP) columns batch_size num_proc kwargs (a : Attrs) :
  outcome (prepare_dataset self p columns (Some batch_size) kwargs) = Ok a →
  outcome (call_panel strings_as_json new_category new_lineage concat_error self p columns
             batch_size num_proc kwargs)
  = outcome (process_dataset strings_as_json new_category new_lineage concat_error
               (with_attrs self a) p columns None num_proc kwargs)
  ∧ trace (call_panel strings_as_json new_category new_lineage concat_error self p columns
             batch_size num_proc kwargs)
    = trace (prepare_dataset self p columns (Some batch_size) kwargs)
      ++ trace (process_dataset strings_as_json new_category new_lineage concat_error
                  (with_attrs self a) p columns None num_proc kwargs).
Proof.
  intros Hprep. unfold call_panel. py_unfold.
  by rewrite outcome_bind, trace_bind, Hprep.
Qed.

Lemma call_panel_passes (self : SB) (p : DP) columns batch_size num_proc kwargs
    (a : Attrs) (batches : list DP) :
  let run :=
    call_panel strings_as_json new_category new_lineage concat_error self p columns
      batch_size num_proc kwargs in
  let pass :=
    process_dataset strings_as_json new_category new_lineage concat_error
      (with_attrs self a) p columns None num_proc kwargs in
  batch p 32 = Ok batches →
  outcome (prepare_dataset self p columns (Some batch_size) kwargs) = Ok a →
  outcome run = outcome pass
  ∧ processed_batches (trace run) = processed_batches (trace pass)
  ∧ prepared_batches (trace run)
    = prepared_batches (trace (prepare_dataset self p columns (Some batch_size) kwargs))
  ∧ ((∀ b, b ∈ batches → ∃ sbs sm,
        process_batch self a b columns kwargs = Ok (Some sbs, sm)) →
     processed_batches (trace run) = batches).
Proof.
  intros run pass Hb Hprep. subst run pass.
  destruct (call_panel_run self p columns batch_size num_proc kwargs a Hprep) as [-> ->].
  rewrite processed_batches_app, prepared_batches_app.
  destruct (prepare_dataset_trace self p columns (Some batch_size) kwargs) as [-> _].
  destruct (process_dataset_trace (with_attrs self a) p columns None num_proc kwargs
              batches Hb) as (-> & _ & _).
  rewrite app_nil_l, app_nil_r. repeat split.
  intros Hall. by apply process_dataset_processes_all.
Qed.

(** C10.  Whatever [batch_size] the caller gives, [__call__] runs
    [process_dataset] without a batch size: once the prerequisite checks
    have passed and the preparation pass has returned, the outcome of the
    call is the outcome of [process_dataset] with its default, and the
    batches handed to [process_batch] are those of that run, which are the
    batches of size 32 of the dataset, in order: all of them when
    [process_batch] gives sub-batches for each or when the call returns, the
    first ones when it raises on the way.  The caller's [batch_size] shows
    only in the batches handed to [prepare_batch], which are those of the
    preparation pass run with it (with 100 for raw input): all the batches of
    that size when [prepare_batch] never raises. *)
Theorem C10_transformation_ignores_batch_size (self : SB) (dp : input) columns
    batch_size num_proc kwargs :
  let run :=
    call strings_as_json new_category new_lineage concat_error DataPanel_of_raw self dp
      columns batch_size num_proc kwargs in
  let p := panel_of DataPanel_of_raw dp in
  let size := match dp with IsPanel _ => default 100 batch_size | IsRaw _ => 100 end in
  let scoped :=
    format p (columns ++ _filter_prerequisite_columns self columns (dp_column_names p)) in
  ∃ batches, batch p 32 = Ok batches
    ∧ processed_batches (trace run) `prefix_of` batches
    ∧ (is_Ok (outcome run) → processed_batches (trace run) = batches)
    ∧ (∀ prepared,
         batch scoped size = Ok prepared →
         prepared_batches (trace run) `prefix_of` prepared)
    ∧ (outcome (prerequisites_handler self dp) = Ok tt →
       outcome (prerequisites_handler self (IsPanel p)) = Ok tt →
       (∀ a, outcome (prepare_dataset self p columns (Some size) kwargs) = Ok a →
          let pass :=
            process_dataset strings_as_json new_category new_lineage concat_error
              (with_attrs self a) p columns None
              (match dp with IsPanel _ => num_proc | IsRaw _ => None end) kwargs in
          outcome run = outcome pass
          ∧ processed_batches (trace run) = processed_batches (trace pass)
          ∧ prepared_batches (trace run)
            = prepared_batches (trace (prepare_dataset self p columns (Some size) kwargs))
          ∧ ((∀ b, b ∈ batches → ∃ sbs sm,
                process_batch self a b columns kwargs = Ok (Some sbs, sm)) →
             processed_batches (trace run) = batches))
       ∧ (∀ prepared,
            batch scoped size = Ok prepared →
            (∀ a b, is_Ok (prepare_batch self a b columns kwargs).2) →
            prepared_batches (trace run) = prepared)).
Proof.
  intros run p size scoped. destruct (batch_positive p 32 ltac:(lia)) as [batches Hb].
  exists batches. split; [done|].
  assert (∀ num_proc',
            processed_batches
              (trace (call_panel strings_as_json new_category new_lineage concat_error self
                        p columns size num_proc' kwargs)) `prefix_of` batches
            ∧ (is_Ok (outcome (call_panel strings_as_json new_category new_lineage
                                 concat_error self p columns size num_proc' kwargs)) →
               processed_batches
                 (trace (call_panel strings_as_json new_category new_lineage concat_error
                           self p columns size num_proc' kwargs)) = batches)
            ∧ ∀ prepared,
                batch scoped size = Ok prepared →
                prepared_batches
                  (trace (call_panel strings_as_json new_category new_lineage concat_error
                            self p columns size num_proc' kwargs)) `prefix_of` prepared)
    as Hpanel.
  { intros num_proc'. by apply call_panel_trace. }
  assert (∀ num_proc' prepared,
            batch scoped size = Ok prepared →
            (∀ a b, is_Ok (prepare_batch self a b columns kwargs).2) →
            prepared_batches
              (trace (call_panel strings_as_json new_category new_lineage concat_error self
                        p columns size num_proc' kwargs)) = prepared) as Hprepared.
  { intros num_proc' prepared Hpre Hok.
    pose proof (prepare_dataset_all self p columns (Some size) kwargs prepared Hok Hpre)
      as Hall.
    destruct (call_panel_passes self p columns size num_proc' kwargs
                (prepared_attrs self columns kwargs prepared (attrs self)) batches Hb)
      as (_ & _ & -> & _); [by rewrite Hall|].
    rewrite Hall. apply prepared_batches_fmap. }
  subst run. unfold call. py_unfold.
  rewrite trace_bind, outcome_bind, processed_batches_app, prepared_batches_app.
  destruct (prerequisites_handler_trace self dp) as (_ & -> & ->). rewrite !app_nil_l.
  destruct (outcome (prerequisites_handler self dp)) as [[]|e].
  2: { cbn. split; [apply prefix_nil|]. split; [by intros [? ?]|].
       split; [intros; apply prefix_nil|]. intros Hfalse. discriminate Hfalse. }
  destruct dp as [dp|raw]; subst scoped size p; cbn [panel_of] in *.
  - destruct (Hpanel num_proc) as (H1 & H2 & H3).
    split; [done|]. split; [done|]. split; [done|]. intros _ _. split.
    + intros a Ha. by apply call_panel_passes.
    + apply Hprepared.
  - rewrite trace_bind, outcome_bind, processed_batches_app, prepared_batches_app.
    destruct (prerequisites_handler_trace self (IsPanel (DataPanel_of_raw raw)))
      as (_ & -> & ->). rewrite !app_nil_l.
    destruct (outcome (prerequisites_handler self (IsPanel (DataPanel_of_raw raw))))
      as [[]|e].
    + destruct (Hpanel None) as (H1 & H2 & H3).
      split; [done|]. split; [done|]. split; [done|]. intros _ _. split.
      * intros a Ha. by apply call_panel_passes.
      * apply Hprepared.
    + cbn. split; [apply prefix_nil|]. split; [by intros [? ?]|].
      split; [intros; apply prefix_nil|]. intros _ Hfalse. discriminate Hfalse.
Qed.

(** * Further properties of the pipeline *)

(** ** Prerequisites *)

(** X1.  The prerequisite check passes exactly when every declared
    prerequisite reports available; passing or not, it has asked each
    prerequisite once, in the order they are held. *)
Theorem prerequisites_handler_passes_iff (self : SB) (dp : input) :
  (outcome (prerequisites_handler self dp) = Ok tt
   ↔ ∀ p, p ∈ prerequisites self → available p dp = true)
  ∧ trace (prerequisites_handler self dp)
    = EvAvailable ∘ prereq_name <$> prerequisites self.
Proof.
  split; [|done]. unfold prerequisites_handler, outcome. cbn [snd].
  destruct (List.filter _ (prerequisites self)) as [|q pending] eqn:E.
  - split; [|done]. intros _ p Hp.
    destruct (available p dp) eqn:Hav; [done|].
    assert (p ∈ List.filter (λ p, negb (available p dp)) (prerequisites self)) as Hin.
    { apply list_elem_of_In, filter_In. rewrite <- list_elem_of_In. by rewrite Hav. }
    rewrite E in Hin. by apply elem_of_nil in Hin.
  - split; [done|]. intros Hall.
    assert (q ∈ List.filter (λ p, negb (available p dp)) (prerequisites self)) as Hin
      by (rewrite E; apply list_elem_of_here).
    apply list_elem_of_In, filter_In in Hin as [Hin Hq].
    apply list_elem_of_In, Hall in Hin. by rewrite Hin in Hq.
Qed.

(** X2.  The prerequisite columns are the columns of the dataset whose name
    starts with the name of some prerequisite, in the order of the dataset;
    the [columns] argument plays no part. *)
Theorem filter_prerequisite_columns_spec (self : SB) (columns all_columns : list string) :
  (∀ col, col ∈ _filter_prerequisite_columns self columns all_columns
          ↔ col ∈ all_columns
            ∧ ∃ p, p ∈ prerequisites self ∧ String.prefix (prereq_name p) col = true)
  ∧ _filter_prerequisite_columns self columns all_columns `sublist_of` all_columns
  ∧ ∀ columns', _filter_prerequisite_columns self columns' all_columns
                = _filter_prerequisite_columns self columns all_columns.
Proof.
  split; [|split; [|done]].
  - intros col. unfold _filter_prerequisite_columns.
    rewrite list_elem_of_In, filter_In, existsb_exists, <- list_elem_of_In.
    split; intros [Hin (p & Hp & Hpre)]; (split; [done|]); exists p;
      (split; [|done]); by apply list_elem_of_In.
  - unfold _filter_prerequisite_columns.
    induction all_columns as [|col all IH]; [done|]. cbn.
    destruct (existsb _ _); [by apply sublist_skip|by apply sublist_cons].
Qed.

(** ** Preparation *)

(** X4.  When [prepare_batch] never raises, preparation offers every batch
    of the scoped dataset once, in order, each call starting from the
    attributes the one before left, and makes no other call. *)
Theorem prepare_dataset_visits_every_batch (self : SB) (dp : DP) columns batch_size
    kwargs (batches : list DP) :
  (∀ a b, is_Ok (prepare_batch self a b columns kwargs).2) →
  batch (format dp (columns
           ++ _filter_prerequisite_columns self columns (dp_column_names dp)))
    (default 32 batch_size) = Ok batches →
  trace (prepare_dataset self dp columns batch_size kwargs) = EvPrepare <$> batches
  ∧ prepared_batches (trace (prepare_dataset self dp columns batch_size kwargs)) = batches
  ∧ outcome (prepare_dataset self dp columns batch_size kwargs)
    = Ok (prepared_attrs self columns kwargs batches (attrs self))
  ∧ concat (dp_rows <$> batches) = dp_rows dp.
Proof.
  intros Hok Hb. rewrite (prepare_dataset_all _ _ _ _ _ _ Hok Hb).
  cbn [trace outcome fst snd]. rewrite prepared_batches_fmap. repeat split.
  by rewrite (batch_concat _ _ _ Hb).
Qed.

Lemma prepare_batches_never_not_implemented (self : SB) columns kwargs batches a msg :
  outcome (prepare_batches self columns kwargs batches a) ≠ Raise (NotImplementedError msg).
Proof.
  revert a. induction batches as [|b rest IH]; intros a; [done|].
  rewrite prepare_batches_cons.
  destruct (prepare_batch self a b columns kwargs) as [a' [u|e]].
  - specialize (IH a'). by destruct (prepare_batches self columns kwargs rest a').
  - by destruct e.
Qed.

(** X5.  [NotImplementedError] never leaves [prepare_dataset], whatever
    [prepare_batch] does and whichever batch it does it on; and every batch
    it hands to [prepare_batch] is scoped to the given columns followed by
    the prerequisite columns. *)
Theorem prepare_dataset_scoped_and_quiet (self : SB) (dp : DP) columns batch_size kwargs :
  (∀ msg, outcome (prepare_dataset self dp columns batch_size kwargs)
          ≠ Raise (NotImplementedError msg))
  ∧ ∀ b, b ∈ prepared_batches (trace (prepare_dataset self dp columns batch_size kwargs)) →
      dp_format b
      = Some (columns ++ _filter_prerequisite_columns self columns (dp_column_names dp)).
Proof.
  split.
  - intros msg. unfold prepare_dataset. py_outcome.
    destruct (batch _ _) as [batches|e] eqn:Hbatch.
    + py_outcome. apply prepare_batches_never_not_implemented.
    + py_outcome. unfold batch in Hbatch. case_decide; [|done].
      injection Hbatch as <-. done.
  - intros b Hb.
    destruct (prepare_dataset_trace self dp columns batch_size kwargs) as [_ Hpre].
    destruct (batch (format dp (columns
                ++ _filter_prerequisite_columns self columns (dp_column_names dp)))
                (default 32 batch_size)) as [batches|e] eqn:Hbatch.
    + specialize (Hpre batches eq_refl).
      destruct Hpre as [k Hk]. assert (b ∈ batches) as Hin
        by (rewrite Hk; apply elem_of_app; by left).
      apply batch_chunks in Hbatch as (_ & cs & -> & _).
      apply list_elem_of_fmap in Hin as (c & -> & _). done.
    + revert Hb. unfold prepare_dataset, trace. unfold mbind, Py_bind, py_bind, lift.
      rewrite Hbatch. cbn. by intros ?%elem_of_nil.
Qed.

(** ** The transformation pass without the contract *)

Lemma process_batches_abort (self : SB) columns kwargs (pre post : list DP) (bt : DP)
    slices ms (e : exn) :
  (∀ b, b ∈ pre → ∃ sbs sm,
     process_batch self (attrs self) b columns kwargs = Ok (Some sbs, sm)) →
  (process_batch self (attrs self) bt columns kwargs = Raise e
   ∨ ∃ sm, process_batch self (attrs self) bt columns kwargs = Ok (None, sm)
           ∧ e = TypeError "'NoneType' object is not iterable") →
  outcome (process_batches self columns kwargs (pre ++ bt :: post) slices ms) = Raise e
  ∧ processed_batches
      (trace (process_batches self columns kwargs (pre ++ bt :: post) slices ms))
    = pre ++ [bt].
Proof.
  intros Hpre Hbt. revert slices ms.
  induction pre as [|b pre IH]; intros slices ms; cbn [app];
    rewrite process_batches_cons.
  - destruct Hbt as [->|(sm & -> & ->)]; done.
  - destruct (Hpre b (list_elem_of_here _ _)) as (sbs & sm & ->).
    specialize (IH (λ b' Hb', Hpre b' (list_elem_of_further _ _ _ Hb'))
                  (zip_append slices sbs) (ms ++ [sm])).
    destruct (process_batches self columns kwargs (pre ++ bt :: post) _ _) as [t r].
    cbn in *. destruct IH as [-> ->]. done.
Qed.

(** X6.  A batch that cannot be transformed ends the run: when
    [process_batch] raises on a batch (or hands back [None] for the list of
    sub-batches, which the loop cannot iterate), [process_dataset] raises
    that very exception, returns nothing, and the batches after the failing
    one are never handed to [process_batch]. *)
Theorem process_dataset_aborts_on_failure (self : SB) (dp : DP) columns batch_size
    num_proc kwargs (pre post : list DP) (bt : DP) (e : exn) :
  batch dp (default 32 batch_size) = Ok (pre ++ bt :: post) →
  (∀ b, b ∈ pre → ∃ sbs sm,
     process_batch self (attrs self) b columns kwargs = Ok (Some sbs, sm)) →
  (process_batch self (attrs self) bt columns kwargs = Raise e
   ∨ ∃ sm, process_batch self (attrs self) bt columns kwargs = Ok (None, sm)
           ∧ e = TypeError "'NoneType' object is not iterable") →
  outcome (process_dataset strings_as_json new_category new_lineage concat_error
             self dp columns batch_size num_proc kwargs)
  = Raise e
  ∧ processed_batches
      (trace (process_dataset strings_as_json new_category new_lineage concat_error
                self dp columns batch_size num_proc kwargs))
    = pre ++ [bt].
Proof.
  intros Hb Hpre Hbt.
  destruct (process_batches_abort self columns kwargs pre post bt
              (replicate (length (identifiers self))
                 [DataPanel_empty new_category new_lineage]) [] e Hpre Hbt)
    as [Hout Htr].
  split.
  - unfold process_dataset. py_outcome. rewrite Hb. py_outcome. by rewrite Hout.
  - by rewrite process_dataset_trace_eq, Hb.
Qed.

Lemma process_batches_ok_inv (self : SB) columns kwargs (batches : list DP)
    slices ms sl ms' :
  outcome (process_batches self columns kwargs batches slices ms) = Ok (sl, ms') →
  (∀ b, b ∈ batches → ∃ sbs sm,
     process_batch self (attrs self) b columns kwargs = Ok (Some sbs, sm))
  ∧ sl = accumulate self columns kwargs slices batches
  ∧ ms' = ms ++ (sub_membership self columns kwargs <$> batches).
Proof.
  revert slices ms. induction batches as [|b rest IH]; intros slices ms.
  { cbn. intros [= <- <-]. rewrite app_nil_r. split; [by intros ? ?%elem_of_nil|done]. }
  rewrite process_batches_cons.
  destruct (process_batch self (attrs self) b columns kwargs) as [[[sbs|] sm]|e] eqn:Hpb;
    [|done..].
  specialize (IH (zip_append slices sbs) (ms ++ [sm])).
  destruct (process_batches self columns kwargs rest _ _) as [t r].
  cbn [outcome snd] in *.
  intros Hr. destruct (IH Hr) as (Hall & -> & ->). split; [|split].
  - intros b' [->|Hin]%elem_of_cons; [by eexists _, _|by apply Hall].
  - unfold accumulate. cbn [foldl].
    replace (sub_batches self columns kwargs b) with sbs; [done|].
    unfold sub_batches. by rewrite Hpb.
  - rewrite fmap_cons.
    replace (sub_membership self columns kwargs b) with sm.
    + by rewrite <- app_assoc.
    + unfold sub_membership. by rewrite Hpb.
Qed.

Lemma process_dataset_ok_general (self : SB) (dp : DP) columns batch_size num_proc
    kwargs slices M :
  outcome (process_dataset strings_as_json new_category new_lineage concat_error
             self dp columns batch_size num_proc kwargs)
  = Ok (slices, M) →
  ∃ batches, batch dp (default 32 batch_size) = Ok batches
    ∧ (∀ b, b ∈ batches → ∃ sbs sm,
         process_batch self (attrs self) b columns kwargs = Ok (Some sbs, sm))
    ∧ slices = (assembled strings_as_json new_category new_lineage self columns kwargs batches).1
    ∧ np_concatenate (sub_membership self columns kwargs <$> batches) = Ok M
    ∧ all_fit new_category new_lineage self columns kwargs batches = true.
Proof.
  unfold process_dataset. py_outcome.
  destruct (batch dp (default 32 batch_size)) as [batches|e]; [|done]. py_outcome.
  destruct (outcome (process_batches _ _ _ batches _ _)) as [[sl ms]|e] eqn:Hpb; [|done].
  apply process_batches_ok_inv in Hpb as (Hall & -> & ->). py_outcome.
  rewrite app_nil_l, accumulate_fresh.
  destruct (np_concatenate _) as [M'|e] eqn:Hnp; [|done]. py_outcome.
  rewrite (concat_each_fresh
             (λ j, omap (λ b, sub_batches self columns kwargs b !! j) batches) _ 0).
  rewrite <- all_fit_accumulated.
  destruct (all_fit _ _ _ _ _ _) eqn:Hfit; py_outcome; [|done].
  rewrite (imap_ext _ (λ j _, with_rows (DataPanel_empty new_category new_lineage)
             (concat (sub_rows self columns kwargs (0 + j) <$> batches)))).
  2: { intros j y _. cbn beta. by rewrite concat_sub_rows. }
  rewrite (tag_slices_imap self columns
             (λ j, concat (sub_rows self columns kwargs j <$> batches))); [|done].
  py_outcome. intros [= <- <-]. by exists batches.
Qed.

Lemma all_fit_inv (self : SB) columns kwargs (batches : list DP) (b : DP) (j : nat)
    (sb : DP) :
  all_fit new_category new_lineage self columns kwargs batches = true →
  j < num_slices self → b ∈ batches →
  sub_batches self columns kwargs b !! j = Some sb →
  dp_column_names sb = [].
Proof.
  intros Hfit Hj Hb Hsb. unfold all_fit in Hfit. rewrite forallb_forall in Hfit.
  specialize (Hfit j). rewrite in_seq in Hfit. unfold num_slices in Hj.
  specialize (Hfit ltac:(lia)). rewrite forallb_forall in Hfit.
  specialize (Hfit b). rewrite <- list_elem_of_In in Hfit. specialize (Hfit Hb).
  unfold sub_fits in Hfit. rewrite Hsb in Hfit. cbn [from_option] in Hfit.
  rewrite same_columns_seed in Hfit. by apply bool_decide_eq_true in Hfit.
Qed.

(** X7.  Whatever [process_batch] returns, a run that returns has one slice
    per identifier: slice [j] holds the rows of the [j]-th sub-batch of every
    batch, in batch order (nothing from a batch that returned fewer than
    [j + 1] sub-batches; sub-batches beyond the identifiers are dropped), it
    has the category of the builder, and the last entry of its lineage is
    made of the capitalized category, identifier [j] and the encoded
    columns.  Every sub-batch that went into it had no column, as
    [DataPanel()] has none. *)
Theorem process_dataset_slices_and_lineage (self : SB) (dp : DP) columns batch_size
    num_proc kwargs slices M :
  outcome (process_dataset strings_as_json new_category new_lineage concat_error
             self dp columns batch_size num_proc kwargs)
  = Ok (slices, M) →
  ∃ batches, batch dp (default 32 batch_size) = Ok batches
    ∧ length slices = num_slices self
    ∧ ∀ j identifier, identifiers self !! j = Some identifier →
        ∃ sl, slices !! j = Some sl
          ∧ dp_rows sl = concat (sub_rows self columns kwargs j <$> batches)
          ∧ dp_category sl = Some (category self)
          ∧ last (dp_lineage sl)
            = Some (Lineage (capitalize (category self)) identifier
                      (strings_as_json columns))
          ∧ ∀ b sb, b ∈ batches → sub_batches self columns kwargs b !! j = Some sb →
              dp_column_names sb = [].
Proof.
  intros (batches & Hb & _ & -> & _ & Hfit)%process_dataset_ok_general.
  exists batches. split; [done|]. unfold assembled. cbn [fst].
  split; [by rewrite length_imap|].
  intros j identifier Hid. eexists. rewrite list_lookup_imap, Hid.
  split; [done|]. split; [done|]. split; [done|]. split.
  - cbn. by rewrite last_snoc.
  - intros b sb Hin Hsb.
    apply (all_fit_inv self columns kwargs batches b j sb Hfit); [|done..].
    by apply lookup_lt_Some in Hid.
Qed.

Lemma all_fit_true (self : SB) columns kwargs (batches : list DP) :
  (∀ b j sb, b ∈ batches → sub_batches self columns kwargs b !! j = Some sb →
     dp_column_names sb = []) →
  all_fit new_category new_lineage self columns kwargs batches = true.
Proof.
  intros H. unfold all_fit. apply forallb_forall. intros j _.
  apply forallb_forall. intros b Hb%list_elem_of_In. unfold sub_fits.
  destruct (sub_batches self columns kwargs b !! j) as [sb|] eqn:E; [|done].
  cbn [from_option]. rewrite same_columns_seed. apply bool_decide_eq_true.
  by apply (H b j).
Qed.

(** X24.  For a builder that honors the batch contract, [process_dataset]
    returns exactly when the dataset has an example and no sub-batch given
    for any of its batches has a column. *)
Theorem process_dataset_returns_iff (self : SB) (dp : DP) columns batch_size num_proc
    kwargs (batches : list DP) :
  honors_contract self columns kwargs →
  batch dp (default 32 batch_size) = Ok batches →
  is_Ok (outcome (process_dataset strings_as_json new_category new_lineage concat_error
                    self dp columns batch_size num_proc kwargs))
  ↔ dp_rows dp ≠ []
    ∧ ∀ b j sb, b ∈ batches → sub_batches self columns kwargs b !! j = Some sb →
        dp_column_names sb = [].
Proof.
  intros Hc Hb. rewrite (process_dataset_outcome _ _ _ _ _ _ _ Hc Hb).
  pose proof (batch_nil _ _ _ Hb) as Hnil. split.
  - destruct batches as [|b0 rest] eqn:E; [by intros [? ?]|]. rewrite <- E in *.
    destruct (all_fit _ _ _ _ _ batches) eqn:Hfit; [|by intros [? ?]].
    intros _. split.
    + intros Hrows. apply Hnil in Hrows. by rewrite Hrows in E.
    + intros b j sb Hin Hsb.
      apply (all_fit_inv self columns kwargs batches b j sb Hfit); [|done..].
      apply lookup_lt_Some in Hsb.
      by rewrite (sub_batches_length self columns kwargs b Hc) in Hsb.
  - intros [Hne Hall]. destruct batches as [|b0 rest] eqn:E.
    + destruct Hne. by apply Hnil.
    + rewrite <- E in *. rewrite (all_fit_true _ _ _ _ Hall). by eexists.
Qed.

Lemma np_concatenate_from_inv (k : nat) acc (ms : list (option ndarray)) (M : ndarray) :
  np_concatenate_from k acc ms = Ok M →
  nd_cols M = k
  ∧ (∀ o, o ∈ ms → ∃ m, o = Some m ∧ nd_cols m = k)
  ∧ nd_rows M = acc ++ concat (from_option nd_rows [] <$> ms).
Proof.
  revert acc. induction ms as [|[m|] ms IH]; intros acc; cbn; [| |done].
  - intros [= <-]. cbn. rewrite app_nil_r. split; [done|]. split; [|done].
    by intros ? ?%elem_of_nil.
  - case_decide as Hk; [|done]. intros (HM & Hall & ->)%IH. split; [done|].
    split; [|by rewrite <- app_assoc].
    intros o [->|Hin]%elem_of_cons; [by exists m|by apply Hall].
Qed.

(** X8.  A run that returns has seen at least one batch, every batch gave a
    membership submatrix, all of them with the number of columns of the
    returned matrix, and the returned matrix is these submatrices one below
    the other in batch order: an empty dataset, a [None] submatrix or two
    submatrices of different widths never get a matrix back. *)
Theorem process_dataset_matrix_needs_agreement (self : SB) (dp : DP) columns batch_size
    num_proc kwargs slices M :
  outcome (process_dataset strings_as_json new_category new_lineage concat_error
             self dp columns batch_size num_proc kwargs)
  = Ok (slices, M) →
  ∃ batches, batch dp (default 32 batch_size) = Ok batches
    ∧ batches ≠ [] ∧ dp_rows dp ≠ []
    ∧ (∀ b, b ∈ batches →
         ∃ m, sub_membership self columns kwargs b = Some m ∧ nd_cols m = nd_cols M)
    ∧ nd_rows M
      = concat ((λ b, nd_rows (sub_matrix self columns kwargs b)) <$> batches).
Proof.
  intros (batches & Hb & _ & _ & Hnp & _)%process_dataset_ok_general.
  exists batches. split; [done|].
  assert (batches ≠ []) as Hne by (by intros ->).
  split; [done|]. split.
  { intros Hrows. by apply (batch_nil _ _ _ Hb) in Hrows. }
  destruct batches as [|b0 rest]; [done|]. rewrite fmap_cons in Hnp.
  cbn [np_concatenate] in Hnp.
  destruct (sub_membership self columns kwargs b0) as [m0|] eqn:Hm0; [|done].
  apply np_concatenate_from_inv in Hnp as (HM & Hall & Hrows). split.
  - intros b [->|Hin]%elem_of_cons; [by exists m0|].
    destruct (Hall (sub_membership self columns kwargs b)) as (m & Hm & Hk).
    { apply list_elem_of_fmap. by exists b. }
    exists m. by rewrite Hm, Hk, HM.
  - rewrite Hrows. cbn. f_equal.
    + unfold sub_matrix, sub_membership in *.
      destruct (process_batch self (attrs self) b0 columns kwargs) as [[? [?|]]|];
        by simplify_eq.
    + f_equal. rewrite <- list_fmap_compose. apply list_fmap_ext. intros _ b _. cbn.
      unfold sub_matrix, sub_membership.
      by destruct (process_batch self (attrs self) b columns kwargs) as [[? [?|]]|].
Qed.

(** ** The call, end to end *)

Lemma prerequisites_handler_available (self : SB) (dp : input) :
  (∀ p, p ∈ prerequisites self → available p dp = true) →
  outcome (prerequisites_handler self dp) = Ok tt.
Proof.
  intros Hall. unfold prerequisites_handler, outcome. cbn [snd].
  destruct (List.filter _ (prerequisites self)) as [|q pending] eqn:E; [done|].
  assert (q ∈ List.filter (λ p, negb (available p dp)) (prerequisites self)) as Hin
    by (rewrite E; apply list_elem_of_here).
  apply list_elem_of_In, filter_In in Hin as [Hin Hq].
  apply list_elem_of_In, Hall in Hin. by rewrite Hin in Hq.
Qed.

Lemma prepare_batches_not_overridden (self : SB) columns kwargs batches a :
  prepare_batch self = prepare_batch_base →
  outcome (prepare_batches self columns kwargs batches a) = Ok a.
Proof.
  intros Hbase. destruct batches as [|b rest]; [done|].
  rewrite prepare_batches_cons. by rewrite Hbase.
Qed.

Lemma with_attrs_self (self : SB) : with_attrs self (attrs self) = self.
Proof. by destruct self. Qed.

(** X9.  For a builder that does not override [prepare_batch] and whose
    prerequisites are all available, calling the builder on a DataPanel with
    a positive [batch_size] gives what [process_dataset] gives with its
    default batch size, and hands [process_batch] the same batches. *)
Theorem call_is_process_dataset (self : SB) (dp : DP) columns batch_size num_proc kwargs :
  (∀ p, p ∈ prerequisites self → available p (IsPanel dp) = true) →
  prepare_batch self = prepare_batch_base →
  0 < default 100 batch_size →
  outcome (call strings_as_json new_category new_lineage concat_error DataPanel_of_raw
             self (IsPanel dp) columns batch_size
             num_proc kwargs)
  = outcome (process_dataset strings_as_json new_category new_lineage concat_error
               self dp columns None num_proc kwargs)
  ∧ processed_batches
      (trace (call strings_as_json new_category new_lineage concat_error DataPanel_of_raw
                self (IsPanel dp) columns batch_size
                num_proc kwargs))
    = processed_batches
        (trace (process_dataset strings_as_json new_category new_lineage concat_error
                  self dp columns None num_proc kwargs)).
Proof.
  intros Hav Hni Hbs.
  pose proof (prerequisites_handler_available self (IsPanel dp) Hav) as Hh.
  destruct (prerequisites_handler_trace self (IsPanel dp)) as (_ & Hhp & _).
  assert (outcome (prepare_dataset self dp columns (Some (default 100 batch_size)) kwargs)
          = Ok (attrs self)) as Hprep.
  { unfold prepare_dataset. py_outcome.
    destruct (batch_positive (format dp (columns
                ++ _filter_prerequisite_columns self columns (dp_column_names dp)))
                _ Hbs) as [batches Hb].
    cbn [from_option id] in *. rewrite Hb. py_outcome.
    by apply prepare_batches_not_overridden. }
  destruct (prepare_dataset_trace self dp columns (Some (default 100 batch_size)) kwargs)
    as [Hpp _].
  unfold call, call_panel. unfold mbind, Py_bind. split.
  - rewrite !outcome_bind, Hh, Hprep. by rewrite with_attrs_self.
  - rewrite !trace_bind, Hh, Hprep, !processed_batches_app, Hhp, Hpp.
    by rewrite with_attrs_self.
Qed.

End slicebuilder_properties.


(** * Properties of the slice filter *)

Section filter_properties.
Context {V : Type}.

Lemma filter_fmap_S (keep : nat → bool) (l : list nat) :
  List.filter keep (S <$> l) = S <$> List.filter (keep ∘ S) l.
Proof.
  induction l as [|i l IH]; [done|]. cbn. rewrite IH. by destruct (keep (S i)).
Qed.

Lemma select_rows_cons (x : V) (v : list V) (keep : nat → bool) :
  select_rows (x :: v) keep
  = (if keep 0 then [x] else []) ++ select_rows v (keep ∘ S).
Proof.
  unfold select_rows. cbn [length seq List.filter].
  rewrite <- fmap_S_seq, filter_fmap_S.
  assert (omap (λ i, (x :: v) !! i) (S <$> List.filter (keep ∘ S) (seq 0 (length v)))
          = omap (λ i, v !! i) (List.filter (keep ∘ S) (seq 0 (length v)))) as <-.
  { induction (List.filter (keep ∘ S) (seq 0 (length v))) as [|i l IH]; [done|].
    cbn. by rewrite IH. }
  by destruct (keep 0).
Qed.

Lemma select_rows_ext (v : list V) (keep1 keep2 : nat → bool) :
  (∀ i, keep1 i = keep2 i) → select_rows v keep1 = select_rows v keep2.
Proof. intros H. unfold select_rows. f_equal. by apply filter_ext. Qed.

(** [compress] keeps the rows at the positions its selectors mark. *)
Lemma compress_select_rows (v : list V) (s : list bool) :
  length s = length v →
  compress v s = select_rows v (λ i, default false (s !! i)).
Proof.
  revert s. induction v as [|x v IH]; intros [|b s] Hlen; try done.
  rewrite select_rows_cons. cbn in Hlen. cbn [compress].
  rewrite (IH s) by lia. by destruct b.
Qed.

Lemma nd_column_lookup (m : ndarray) (i j : nat) :
  default false (nd_column m j !! i) = nd_get m i j.
Proof.
  unfold nd_column, nd_get. rewrite list_lookup_fmap.
  by destruct (nd_rows m !! i).
Qed.

Lemma nd_column_length (m : ndarray) (j : nat) :
  length (nd_column m j) = length (nd_rows m).
Proof. unfold nd_column. by rewrite length_fmap. Qed.

(** C4.  For a columnar batch whose columns all have [n] entries and a
    membership matrix of shape (n, k), the filter returns [k] batches;
    batch [j] has the columns of the input, and each of its columns holds
    the entries at the rows [i] with [matrix[i, j]] true, by increasing
    [i]. *)
Theorem C4_filter_selects_member_rows (batch : gmap string (list V)) (m : ndarray)
    (n k : nat) :
  has_shape m n k →
  (∀ c v, batch !! c = Some v → length v = n) →
  length (filter_batch_by_slice_membership batch m) = k
  ∧ ∀ j, j < k →
      ∃ sl, filter_batch_by_slice_membership batch m !! j = Some sl
        ∧ dom sl = dom batch
        ∧ ∀ c v, batch !! c = Some v →
            sl !! c = Some (select_rows v (λ i, nd_get m i j)).
Proof.
  intros (Hn & Hk & _) Hcols. unfold filter_batch_by_slice_membership, nd_T. split.
  { by rewrite !length_fmap, length_seq. }
  intros j Hj. eexists. split.
  { rewrite !list_lookup_fmap, lookup_seq_lt by lia. done. }
  split; [by rewrite dom_fmap_L|].
  intros c v Hc. rewrite lookup_fmap, Hc. cbn. f_equal.
  rewrite compress_select_rows.
  - apply select_rows_ext. intros i. apply nd_column_lookup.
  - rewrite nd_column_length, Hn. symmetry. by eapply Hcols.
Qed.

End filter_properties.

(** * Properties of retrieval *)

Section retrieve_properties.
Context {Encoded Decoded SliceInfo Identifier ProcFn : Type}.
Variable strings_as_json : list string → string.
Variable decode : Encoded → Decoded.
Variable cls_name : string.
Variable str_of_identifier : Identifier → string.
Variable missing_column : string → exn.

Abbreviation CP := (@CachedPanel Encoded SliceInfo).
Abbreviation retrieve' :=
  (@retrieve Encoded Decoded SliceInfo Identifier ProcFn strings_as_json decode cls_name
     str_of_identifier missing_column).

(** On a batch without a "slices" column [retrieve] returns [None] and
    raises nothing, whatever the identifier, the column sets, the processing
    functions and [reapply]. *)
Lemma retrieve_no_slices_column (batch : CP) columns proc_fns identifier reapply :
  slices_column batch = None →
  retrieve' batch columns proc_fns identifier reapply = Ok None.
Proof. intros H. unfold retrieve. rewrite H. by destruct reapply. Qed.

(** C7, at the batch that breaks it.  The guard looks for the "slices"
    column and the lookups read the "cache" column: on a batch that has a
    "slices" column and carries no cache data, [retrieve] gets past the guard
    and indexes the batch by "cache".  It raises what that indexing raises
    (the generic retrieval failure in its place when it is a [KeyError]) and
    does not return [None]. *)
Theorem C7_slices_without_cache_raises (batch : CP) slices columns proc_fns identifier :
  slices_column batch = Some slices →
  cache_column batch = None →
  identifier_truthy identifier = true ∨ slices ≠ [] →
  requested columns ≠ [] →
  retrieve' batch columns proc_fns identifier false
  = Raise (match missing_column "cache" with
           | KeyError _ => retrieval_failed
           | e => e
           end).
Proof.
  intros Hs Hc Hid Hcols. unfold retrieve. cbn [negb]. rewrite Hs.
  assert (∀ identifier',
            except_KeyError
              (try_retrieval strings_as_json decode str_of_identifier missing_column batch
                 identifier' columns) retrieval_failed
            = Raise (match missing_column "cache" with
                     | KeyError _ => retrieval_failed
                     | e => e
                     end)) as Hbody.
  { intros identifier'. unfold try_retrieval.
    destruct columns as [[|c cs]|[|cols colss]]; try done;
      cbn [retrieve_column_sets]; unfold retrieve_column_set; rewrite Hc;
      unfold mbind; cbn [result_bind];
      by destruct (missing_column "cache"). }
  destruct (identifier_truthy identifier) eqn:Ht; cbn [negb].
  - unfold mbind. cbn [result_bind]. by rewrite Hbody.
  - destruct Hid as [?|Hne]; [done|]. destruct slices as [|first rest]; [done|].
    unfold mbind. cbn [result_bind]. by rewrite Hbody.
Qed.

(** ** Missing keys *)

Abbreviation has_key' := (@has_key Encoded strings_as_json).

Lemma lookup_cache_cases (cache : gmap string (gmap string Encoded)) ident cols :
  (has_key' cache ident cols
   ∧ is_Ok (lookup_cache decode cache ident (strings_as_json cols)))
  ∨ (¬ has_key' cache ident cols
     ∧ ∃ k, lookup_cache decode cache ident (strings_as_json cols) = Raise (KeyError k)).
Proof.
  unfold has_key, lookup_cache.
  destruct (cache !! ident) as [per_columns|]; cbn.
  - destruct (per_columns !! strings_as_json cols) as [e|]; cbn.
    + left. split; [done|by eexists].
    + right. split; [by intros [? ?]|by eexists].
  - right. split; [by intros [? ?]|by eexists].
Qed.

Lemma lookup_each_cases (caches : list (gmap string (gmap string Encoded))) ident cols :
  ((∀ cache, cache ∈ caches → has_key' cache ident cols)
   ∧ is_Ok (lookup_each decode caches ident (strings_as_json cols)))
  ∨ ((∃ cache, cache ∈ caches ∧ ¬ has_key' cache ident cols)
     ∧ ∃ k, lookup_each decode caches ident (strings_as_json cols) = Raise (KeyError k)).
Proof.
  induction caches as [|cache caches IH].
  { left. split; [by intros ? ?%elem_of_nil|by eexists]. }
  cbn [lookup_each]. unfold mbind, mret.
  destruct (lookup_cache_cases cache ident cols) as [[Hk [d ->]]|[Hk [k ->]]];
    cbn [result_bind].
  - destruct IH as [[Hall [ds ->]]|[(cache' & Hin & Hmiss) [k ->]]]; cbn [result_bind].
    + left. split; [|by eexists].
      intros cache' [->|Hin]%elem_of_cons; [done|by apply Hall].
    + right. split; [|by eexists]. exists cache'. split; [by apply list_elem_of_further|done].
  - right. split; [|by eexists]. exists cache. split; [apply list_elem_of_here|done].
Qed.

Lemma retrieve_column_sets_cases (batch : CP) caches identifier colss acc :
  cache_column batch = Some caches →
  ((∀ cache cols, cache ∈ caches → cols ∈ colss →
      has_key' cache (str str_of_identifier identifier) cols)
   ∧ is_Ok (retrieve_column_sets strings_as_json decode str_of_identifier missing_column
              batch identifier colss acc))
  ∨ ((∃ cache cols, cache ∈ caches ∧ cols ∈ colss
        ∧ ¬ has_key' cache (str str_of_identifier identifier) cols)
     ∧ ∃ k, retrieve_column_sets strings_as_json decode str_of_identifier missing_column
              batch identifier colss acc = Raise (KeyError k)).
Proof.
  intros Hc. revert acc. induction colss as [|cols colss IH]; intros acc.
  { left. split; [by intros ? ? ? ?%elem_of_nil|by eexists]. }
  cbn [retrieve_column_sets]. unfold retrieve_column_set. rewrite Hc. unfold mbind.
  destruct (lookup_each_cases caches (str str_of_identifier identifier) cols)
    as [[Hall [ds ->]]|[(cache & Hin & Hmiss) [k ->]]]; cbn [result_bind].
  - destruct (IH (<[strings_as_json cols:=ds]> acc))
      as [[Hall' Hok]|[(cache & cols' & Hin & Hin' & Hmiss) Hraise]].
    + left. split; [|done].
      intros cache cols' Hin [->|Hin']%elem_of_cons; [by apply Hall|by apply Hall'].
    + right. split; [|done]. exists cache, cols'.
      split; [done|]. split; [by apply list_elem_of_further|done].
  - right. split; [|by eexists]. exists cache, cols.
    split; [done|]. split; [apply list_elem_of_here|done].
Qed.

(** The body of the [try] block *)
Lemma retrieval_cases (batch : CP) caches identifier columns :
  cache_column batch = Some caches →
  let body :=
    try_retrieval strings_as_json decode str_of_identifier missing_column
      batch identifier columns in
  ((∀ cache cols, cache ∈ caches → cols ∈ requested columns →
      has_key' cache (str str_of_identifier identifier) cols)
   ∧ (is_Ok body ∨ (requested columns = [] ∧ ∃ msg, body = Raise (IndexError msg))))
  ∨ ((∃ cache cols, cache ∈ caches ∧ cols ∈ requested columns
        ∧ ¬ has_key' cache (str str_of_identifier identifier) cols)
     ∧ ∃ k, body = Raise (KeyError k)).
Proof.
  intros Hc body. subst body. unfold try_retrieval.
  destruct columns as [[|c cs]|[|cols colss]].
  - left. split; [by intros ? ? ? ?%elem_of_nil|]. right. split; [done|by eexists].
  - unfold retrieve_column_set. rewrite Hc. unfold mbind, mret. cbn [requested].
    destruct (lookup_each_cases caches (str str_of_identifier identifier) (c :: cs))
      as [[Hall [ds ->]]|[(cache & Hin & Hmiss) [k ->]]]; cbn [result_bind].
    + left. split; [|left; by eexists].
      intros cache cols Hin ->%list_elem_of_singleton. by apply Hall.
    + right. split; [|by eexists]. exists cache, (c :: cs).
      split; [done|]. split; [apply list_elem_of_here|done].
  - left. split; [by intros ? ? ? ?%elem_of_nil|]. right. split; [done|by eexists].
  - cbn [requested].
    destruct (retrieve_column_sets_cases batch caches identifier (cols :: colss) ∅ Hc)
      as [[Hall Hok]|[Hmiss Hraise]].
    + left. split; [done|by left].
    + by right.
Qed.


(** C9, as amended.  With [reapply=True], [retrieve] looks at nothing: it
    returns [None], whatever the batch holds, without raising. *)
Theorem C9_reapply_returns_none (batch : CP) columns proc_fns identifier :
  retrieve' batch columns proc_fns identifier true = Ok None.
Proof. done. Qed.

End retrieve_properties.


(** * The properties on sample data *)

(** The scenario of the specification: membership alternating with the
    parity of the example, four examples, batches of three.  The sub-batches
    are cut out of the batches and have their column: [mosaic.concat]
    refuses them next to [DataPanel()]. *)
Example parity_scenario :
  outcome (sample_process_dataset parity_builder (sample_panel [0; 1; 2; 3])
             ["text"] (Some 3) None tt)
  = Raise some_concat_error
  ∧ processed_batches
      (trace (sample_process_dataset parity_builder (sample_panel [0; 1; 2; 3])
                ["text"] (Some 3) None tt))
    = [sample_panel [0; 1; 2]; sample_panel [3]].
Proof. split; reflexivity. Qed.

(** The same scenario for the builder that marks the parity in the matrix
    and hands back empty panels *)
Example marker_scenario :
  outcome (sample_process_dataset parity_marker (sample_panel [0; 1; 2; 3])
             ["text"] (Some 3) None tt)
  = Ok ([final_slice columns_key some_category some_lineage parity_marker ["text"]
           "even" [];
         final_slice columns_key some_category some_lineage parity_marker ["text"]
           "odd" []],
        NdArray 2 [[true; false]; [false; true]; [true; false]; [false; true]]).
Proof. reflexivity. Qed.

(** C1 on the parity builder: the first sub-batch of the first batch has the
    column of the dataset *)
Lemma C1_witness :
  honors_contract parity_builder ["text"] tt
  ∧ batch (sample_panel [0; 1; 2; 3]) (default 32 (Some 3))
    = Ok [sample_panel [0; 1; 2]; sample_panel [3]]
  ∧ sample_panel [0; 1; 2] ∈ [sample_panel [0; 1; 2]; sample_panel [3]]
  ∧ sub_batches parity_builder ["text"] tt (sample_panel [0; 1; 2]) !! 0
    = Some (sample_panel [0; 2])
  ∧ dp_column_names (sample_panel [0; 2]) ≠ []
  ∧ outcome (sample_process_dataset parity_builder (sample_panel [0; 1; 2; 3])
               ["text"] (Some 3) None tt)
    = Raise some_concat_error.
Proof.
  assert (honors_contract parity_builder ["text"] tt) as Hc
    by (apply filter_builder_honors; reflexivity).
  assert (batch (sample_panel [0; 1; 2; 3]) (default 32 (Some 3))
          = Ok [sample_panel [0; 1; 2]; sample_panel [3]]) as Hb by reflexivity.
  assert (sample_panel [0; 1; 2] ∈ [sample_panel [0; 1; 2]; sample_panel [3]]) as Hin
    by apply list_elem_of_here.
  assert (sub_batches parity_builder ["text"] tt (sample_panel [0; 1; 2]) !! 0
          = Some (sample_panel [0; 2])) as Hsb by reflexivity.
  assert (dp_column_names (sample_panel [0; 2]) ≠ []) as Hcols by discriminate.
  split; [exact Hc|]. split; [exact Hb|]. split; [exact Hin|]. split; [exact Hsb|].
  split; [exact Hcols|].
  exact (C1_concat_refuses_the_seed columns_key some_category some_lineage
           some_concat_error parity_builder (sample_panel [0; 1; 2; 3]) ["text"] (Some 3)
           None tt _ _ 0 _ Hc Hb Hin Hsb Hcols).
Defined.

(** The parity builder honors the contract and gets nothing back for a
    dataset without examples. *)
Example empty_sample_raises :
  honors_contract parity_builder ["text"] tt
  ∧ outcome (sample_process_dataset parity_builder (sample_panel []) ["text"]
               (Some 32) None tt)
    = Raise (ValueError "need at least one array to concatenate").
Proof. split; [apply filter_builder_honors|]; reflexivity. Qed.

(** C3 fails as stated: the builder that marks the first example of every
    batch honors the contract, and batches of 2 and of 4 give it different
    membership matrices. *)
Lemma C3_counterexample :
  honors_contract first_in_batch_builder ["text"] tt
  ∧ 2 ≠ 4
  ∧ outcome (sample_process_dataset first_in_batch_builder
               (sample_panel [10; 20; 30; 40]) ["text"] (Some 2) None tt)
    = Ok ([final_slice columns_key some_category some_lineage first_in_batch_builder
             ["text"] "first" []],
          NdArray 1 [[true]; [false]; [true]; [false]])
  ∧ outcome (sample_process_dataset first_in_batch_builder
               (sample_panel [10; 20; 30; 40]) ["text"] (Some 4) None tt)
    = Ok ([final_slice columns_key some_category some_lineage first_in_batch_builder
             ["text"] "first" []],
          NdArray 1 [[true]; [false]; [false]; [false]])
  ∧ outcome (sample_process_dataset first_in_batch_builder
               (sample_panel [10; 20; 30; 40]) ["text"] (Some 2) None tt)
    ≠ outcome (sample_process_dataset first_in_batch_builder
                 (sample_panel [10; 20; 30; 40]) ["text"] (Some 4) None tt).
Proof.
  split; [apply head_builder_honors|]. split; [lia|].
  split; [reflexivity|]. split; [reflexivity|]. discriminate.
Qed.

(** C3, as amended, on the builder that marks the parity in the matrix:
    batches of 2 and of 4 give the same slices and the same matrix *)
Lemma C3_witness :
  honors_contract parity_marker ["text"] tt
  ∧ example_wise parity_marker ["text"] tt
  ∧ 0 < 2 ∧ 0 < 4
  ∧ outcome (sample_process_dataset parity_marker (sample_panel [10; 20; 30; 40])
               ["text"] (Some 2) None tt)
    = outcome (sample_process_dataset parity_marker (sample_panel [10; 20; 30; 40])
                 ["text"] (Some 4) None tt)
  ∧ ∃ slices M,
      outcome (sample_process_dataset parity_marker (sample_panel [10; 20; 30; 40])
                 ["text"] (Some 2) None tt)
      = Ok (slices, M).
Proof.
  assert (honors_contract parity_marker ["text"] tt) as Hc
    by (apply marker_builder_honors; reflexivity).
  assert (example_wise parity_marker ["text"] tt) as Hew
    by apply marker_builder_example_wise.
  assert (0 < 2) as H2 by lia. assert (0 < 4) as H4 by lia.
  split; [exact Hc|]. split; [exact Hew|]. split; [exact H2|]. split; [exact H4|].
  destruct (C3_batch_size_not_observable columns_key some_category some_lineage
              some_concat_error parity_marker (sample_panel [10; 20; 30; 40]) ["text"]
              2 4 None tt Hc Hew H2 H4)
    as [Heq Hret].
  split; [exact Heq|]. apply Hret; [discriminate|].
  intros j. apply marker_builder_columns.
Defined.

(** The amended C3 holds for the parity builder as well: batches of 2 and of
    4 end in the same exception. *)
Example parity_batch_sizes :
  outcome (sample_process_dataset parity_builder (sample_panel [10; 20; 30; 40])
             ["text"] (Some 2) None tt)
  = outcome (sample_process_dataset parity_builder (sample_panel [10; 20; 30; 40])
               ["text"] (Some 4) None tt).
Proof. reflexivity. Qed.

(** C4 on a batch of one column and three rows *)
Lemma C4_witness :
  has_shape sample_membership 3 2
  ∧ (∀ c v, sample_batch !! c = Some v → length v = 3)
  ∧ length (filter_batch_by_slice_membership sample_batch sample_membership) = 2.
Proof.
  assert (has_shape sample_membership 3 2) as Hm.
  { repeat split. repeat constructor. }
  assert (∀ c v, sample_batch !! c = Some v → length v = 3) as Hb.
  { unfold sample_batch. intros c v [_ <-]%lookup_singleton_Some. reflexivity. }
  split; [exact Hm|]. split; [exact Hb|].
  destruct (C4_filter_selects_member_rows sample_batch sample_membership 3 2 Hm Hb)
    as [Hlen _].
  exact Hlen.
Defined.

(** C5, at the scenario of the specification.  The base class gives [None]
    for every membership submatrix, and [np.concatenate] refuses the list:
    [process_dataset] raises, and so does the call (which moreover batches
    by 32, not by 2). *)
Theorem C5_identity_builder_raises :
  outcome (sample_process_dataset identity_builder (sample_panel [0; 1; 2; 3; 4])
             ["text"] (Some 2) None tt)
  = Raise (ValueError "zero-dimensional arrays cannot be concatenated")
  ∧ outcome (sample_call identity_builder
               (IsPanel (sample_panel [0; 1; 2; 3; 4])) ["text"] (Some 2) None tt)
    = Raise (ValueError "zero-dimensional arrays cannot be concatenated")
  ∧ processed_batches
      (trace (sample_process_dataset identity_builder (sample_panel [0; 1; 2; 3; 4])
                ["text"] (Some 2) None tt))
    = [sample_panel [0; 1]; sample_panel [2; 3]; sample_panel [4]].
Proof. repeat split; reflexivity. Qed.

(** C6 on a builder whose prerequisite is never available *)
Lemma C6_witness :
  never_available ∈ prerequisites gated_builder
  ∧ available never_available (IsPanel (sample_panel [1; 2])) = false
  ∧ outcome (sample_call gated_builder (IsPanel (sample_panel [1; 2]))
               ["text"] None None tt)
    = Raise (RuntimeError
        "Cannot run SliceBuilder, prerequisites {<class 'Spacy'>} not satisfied.")
  ∧ processed_batches
      (trace (sample_call gated_builder (IsPanel (sample_panel [1; 2]))
                ["text"] None None tt)) = []
  ∧ prepared_batches
      (trace (sample_call gated_builder (IsPanel (sample_panel [1; 2]))
                ["text"] None None tt)) = [].
Proof.
  assert (never_available ∈ prerequisites gated_builder) as Hin
    by apply list_elem_of_here.
  assert (available never_available (IsPanel (sample_panel [1; 2])) = false) as Hun
    by reflexivity.
  split; [exact Hin|]. split; [exact Hun|].
  destruct (C6_unmet_prerequisite_stops_the_call columns_key some_category some_lineage
              some_concat_error wrap_rows gated_builder
              (IsPanel (sample_panel [1; 2])) ["text"] None None tt never_available
              Hin Hun) as (_ & _ & Hout & _ & Hproc & Hprep).
  split; [exact Hout|]. split; [exact Hproc|exact Hprep].
Defined.

(** C7 on a batch with a "slices" column and no "cache" column: [retrieve]
    raises what the missing column raises and does not return [None]. *)
Lemma C7_witness :
  slices_column slices_only_panel = Some [[("SliceBuilder(x)", tt)]]
  ∧ cache_column slices_only_panel = None
  ∧ sample_retrieve slices_only_panel (Single ["text"]) ProcNone
      (IdStr "SliceBuilder(x)") false
    = Raise (sample_missing_column "cache")
  ∧ sample_retrieve slices_only_panel (Batched [["text"]; ["label"]]) ProcNone IdNone
      false
    = Raise (sample_missing_column "cache").
Proof.
  split; [reflexivity|]. split; [reflexivity|]. split.
  - apply (C7_slices_without_cache_raises columns_key id "SliceBuilder" id
             sample_missing_column slices_only_panel [[("SliceBuilder(x)", tt)]]
             (Single ["text"]) (@ProcNone unit) (IdStr "SliceBuilder(x)") eq_refl eq_refl).
    + by left.
    + discriminate.
  - apply (C7_slices_without_cache_raises columns_key id "SliceBuilder" id
             sample_missing_column slices_only_panel [[("SliceBuilder(x)", tt)]]
             (Batched [["text"]; ["label"]]) (@ProcNone unit) IdNone eq_refl eq_refl).
    + by right.
    + discriminate.
Defined.

(** The guard of [retrieve] on a batch with neither column *)
Example bare_panel_gives_none :
  sample_retrieve bare_panel (Single ["text"]) ProcNone (IdStr "SliceBuilder(x)") false
  = Ok None.
Proof. reflexivity. Qed.


(** C9 fails as stated: with [reapply=True] the cached batch gives back
    [None], not a recomputed result (with [reapply=False] it gives back the
    cached value). *)
Lemma C9_counterexample :
  sample_retrieve cached_panel (Single ["text"]) ProcNone (IdStr "SliceBuilder(x)") true
  = Ok None
  ∧ sample_retrieve cached_panel (Single ["text"]) ProcNone (IdStr "SliceBuilder(x)") false
    = Ok (Some {[ "text" := [7] ]}).
Proof. split; [reflexivity|]. vm_compute. reflexivity. Qed.

(** C10 on the counting builder, called on forty examples with a batch size
    of 7: the transformation pass sees a batch of 32 and a batch of 8, the
    preparation pass six batches of at most 7. *)
Lemma C10_witness :
  processed_batches
    (trace (call columns_key some_category some_lineage some_concat_error wrap_rows
              counting_builder (IsPanel (sample_panel (seq 0 40))) ["text"] (Some 7)
              None tt))
  = [sample_panel (seq 0 32); sample_panel (seq 32 8)]
  ∧ len <$> prepared_batches
      (trace (call columns_key some_category some_lineage some_concat_error wrap_rows
                counting_builder (IsPanel (sample_panel (seq 0 40))) ["text"] (Some 7)
                None tt))
    = [7; 7; 7; 7; 7; 5].
Proof.
  destruct (C10_transformation_ignores_batch_size columns_key some_category some_lineage
              some_concat_error wrap_rows counting_builder
              (IsPanel (sample_panel (seq 0 40))) ["text"] (Some 7) None tt)
    as (batches & Hb & _ & _ & _ & Hpass).
  assert (Ok [sample_panel (seq 0 32); sample_panel (seq 32 8)] = Ok batches) as Heq
    by (rewrite <- Hb; reflexivity).
  injection Heq as <-.
  destruct (Hpass eq_refl eq_refl) as [Hrun Hprep]. split.
  - destruct (Hrun 40 eq_refl) as (_ & _ & _ & Hall).
    apply Hall. intros b _. eexists _, _. reflexivity.
  - rewrite (Hprep _ eq_refl); [reflexivity|].
    intros a b. eexists. reflexivity.
Defined.


(** * Further properties of the slice filter *)

Section filter_more.
Context {V : Type}.

Lemma compress_sublist (v : list V) (s : list bool) : compress v s `sublist_of` v.
Proof.
  revert s. induction v as [|x v IH]; intros [|b s]; cbn; try apply sublist_nil_l.
  destruct b; [by apply sublist_skip|by apply sublist_cons].
Qed.

Lemma filter_batch_lookup (batch : gmap string (list V)) (m : ndarray) (j : nat) :
  filter_batch_by_slice_membership batch m !! j
  = if decide (j < nd_cols m)
    then Some ((λ v, compress v (nd_column m j)) <$> batch)
    else None.
Proof.
  unfold filter_batch_by_slice_membership, nd_T. rewrite !list_lookup_fmap.
  case_decide as Hj.
  - by rewrite lookup_seq_lt.
  - by rewrite lookup_seq_ge by lia.
Qed.

(** X11.  Whatever the shapes of the batch and of the matrix, the filter
    raises nothing and returns one batch per matrix column; each has the
    columns of the input, and each of its columns is a sublist of the input
    column: entries are dropped, never added, repeated or reordered. *)
Theorem filter_keeps_sublists (batch : gmap string (list V)) (m : ndarray) :
  length (filter_batch_by_slice_membership batch m) = nd_cols m
  ∧ Forall (λ sl : gmap string (list V),
      dom sl = dom batch
      ∧ ∀ c v, batch !! c = Some v → ∃ w, sl !! c = Some w ∧ w `sublist_of` v)
      (filter_batch_by_slice_membership batch m).
Proof.
  split.
  { unfold filter_batch_by_slice_membership, nd_T. by rewrite !length_fmap, length_seq. }
  apply Forall_forall. intros sl Hsl.
  apply list_elem_of_lookup in Hsl as [j Hj]. rewrite filter_batch_lookup in Hj.
  case_decide; [|done]. injection Hj as <-. split; [by rewrite dom_fmap_L|].
  intros c v Hc. eexists. rewrite lookup_fmap, Hc. split; [done|]. apply compress_sublist.
Qed.

Lemma compress_take (v : list V) (s : list bool) :
  compress v s = compress (take (length s) v) s.
Proof.
  revert s. induction v as [|x v IH]; intros [|b s]; cbn; try done.
  rewrite <- IH. done.
Qed.

(** X12.  Rows of the batch beyond the last row of the matrix are dropped
    without any error: the result is the one for the batch cut down to the
    number of rows of the matrix. *)
Theorem filter_ignores_rows_beyond_matrix (batch : gmap string (list V)) (m : ndarray) :
  filter_batch_by_slice_membership batch m
  = filter_batch_by_slice_membership (take (length (nd_rows m)) <$> batch) m.
Proof.
  unfold filter_batch_by_slice_membership. apply list_fmap_ext. intros i s Hs.
  rewrite <- map_fmap_compose. apply map_fmap_ext. intros c v _. cbn.
  assert (length s = length (nd_rows m)) as <-; [|apply compress_take].
  unfold nd_T in Hs. apply list_lookup_fmap_Some in Hs as (j & -> & _).
  unfold nd_column. by rewrite length_fmap.
Qed.

Lemma compress_length (v : list V) (s : list bool) :
  length s = length v → length (compress v s) = length (List.filter id s).
Proof.
  revert s. induction v as [|x v IH]; intros [|b s] Hlen; try done.
  cbn in *. destruct b; cbn; rewrite IH by lia; done.
Qed.

Lemma compress_all_true (v : list V) (s : list bool) :
  length s = length v → Forall (λ b, b = true) s → compress v s = v.
Proof.
  revert s. induction v as [|x v IH]; intros [|b s] Hlen Hall; try done.
  apply Forall_cons in Hall as [-> Hall]. cbn in *. by rewrite IH by (lia || done).
Qed.

Lemma compress_all_false (v : list V) (s : list bool) :
  Forall (λ b, b = false) s → compress v s = [].
Proof.
  revert s. induction v as [|x v IH]; intros [|b s] Hall; try done.
  apply Forall_cons in Hall as [-> Hall]. cbn. by apply IH.
Qed.

(** X13.  On a batch and a matrix of matching shapes, every column of slice
    [j] has as many entries as column [j] of the matrix has true entries; a
    matrix column that is all true gives the batch back unchanged, and one
    that is all false gives a batch whose columns are all empty. *)
Theorem filter_slice_sizes (batch : gmap string (list V)) (m : ndarray) (n k j : nat) :
  has_shape m n k →
  (∀ c v, batch !! c = Some v → length v = n) →
  j < k →
  ∃ sl, filter_batch_by_slice_membership batch m !! j = Some sl
    ∧ (∀ c w, sl !! c = Some w → length w = length (List.filter id (nd_column m j)))
    ∧ (Forall (λ b, b = true) (nd_column m j) → sl = batch)
    ∧ (Forall (λ b, b = false) (nd_column m j) → sl = (λ _, []) <$> batch).
Proof.
  intros (Hn & Hk & _) Hcols Hj. eexists. rewrite filter_batch_lookup.
  rewrite decide_True by lia. split; [done|].
  assert (∀ c v, batch !! c = Some v → length (nd_column m j) = length v) as Hlen.
  { intros c v Hc. unfold nd_column. rewrite length_fmap, Hn. symmetry. by eapply Hcols. }
  split; [|split].
  - intros c w. rewrite lookup_fmap. destruct (batch !! c) as [v|] eqn:Hc; [|done].
    intros [= <-]. apply compress_length. by eapply Hlen.
  - intros Hall. apply map_eq. intros c. rewrite lookup_fmap.
    destruct (batch !! c) as [v|] eqn:Hc; [|done]. cbn. f_equal.
    apply compress_all_true; [by eapply Hlen|done].
  - intros Hall. apply map_fmap_ext. intros c v _. by apply compress_all_false.
Qed.

Lemma concat_insert_one (x : V) (f : nat → list V) (r : nat → bool) (k j0 : nat) :
  j0 < k → (∀ j, j < k → (r j = true ↔ j = j0)) →
  concat ((λ j, if r j then x :: f j else f j) <$> seq 0 k)
  ≡ₚ x :: concat (f <$> seq 0 k).
Proof.
  intros Hj0 Hone.
  replace k with (j0 + S (k - j0 - 1)) by lia.
  rewrite seq_app, Nat.add_0_l. cbn [seq]. rewrite !fmap_app, !fmap_cons, !concat_app. cbn [concat].
  assert (r j0 = true) as -> by (apply Hone; [lia|done]).
  assert (∀ l : list nat, (∀ j, j ∈ l → j < k ∧ j ≠ j0) →
            (λ j, if r j then x :: f j else f j) <$> l = f <$> l) as Hext.
  { intros l Hl. apply list_fmap_ext. intros i j Hij.
    destruct (Hl j) as [Hjk Hne]; [by eapply list_elem_of_lookup_2|].
    destruct (r j) eqn:Hr; [|done]. by apply Hone in Hr. }
  rewrite !Hext.
  - symmetry. apply Permutation_middle.
  - intros j [? ?]%elem_of_seq. lia.
  - intros j [? ?]%elem_of_seq. lia.
Qed.

Lemma compress_partition (v : list V) (rows : list (list bool)) (k : nat) :
  length rows = length v →
  (∀ i row, rows !! i = Some row →
     ∃ j0, j0 < k ∧ ∀ j, j < k → (default false (row !! j) = true ↔ j = j0)) →
  concat ((λ j, compress v ((λ row, default false (row !! j)) <$> rows)) <$> seq 0 k)
  ≡ₚ v.
Proof.
  revert rows. induction v as [|x v IH]; intros [|row rows] Hlen Hone; try done.
  { cbn. induction (seq 0 k) as [|j l IHl]; [done|]. cbn. exact IHl. }
  cbn [fmap list_fmap compress].
  destruct (Hone 0 row eq_refl) as (j0 & Hj0 & Hrow).
  etransitivity.
  { apply (concat_insert_one x
             (λ j, compress v ((λ row, default false (row !! j)) <$> rows))
             (λ j, default false (row !! j)) k j0 Hj0 Hrow). }
  constructor. apply IH; [by injection Hlen|].
  intros i row' Hi. apply (Hone (S i) row' Hi).
Qed.

(** X14.  When every row of the matrix marks exactly one slice, the slices
    split the batch: for each column, the entries of the slices taken
    together are the entries of the batch, each of them once. *)
Theorem filter_partitions_batch (batch : gmap string (list V)) (m : ndarray) (n k : nat) :
  has_shape m n k →
  (∀ c v, batch !! c = Some v → length v = n) →
  (∀ i, i < n → ∃ j0, j0 < k ∧ ∀ j, j < k → (nd_get m i j = true ↔ j = j0)) →
  ∀ c v, batch !! c = Some v →
    concat (omap (λ sl : gmap string (list V), sl !! c)
              (filter_batch_by_slice_membership batch m)) ≡ₚ v.
Proof.
  intros (Hn & Hk & _) Hcols Hone c v Hc.
  assert (omap (λ sl : gmap string (list V), sl !! c)
            (filter_batch_by_slice_membership batch m)
          = (λ j, compress v (nd_column m j)) <$> seq 0 k) as ->.
  { unfold filter_batch_by_slice_membership, nd_T. rewrite Hk.
    induction (seq 0 k) as [|j l IH]; [done|].
    cbn. rewrite lookup_fmap, Hc. cbn. f_equal. exact IH. }
  apply compress_partition.
  - rewrite Hn. symmetry. by eapply Hcols.
  - intros i row Hi.
    destruct (Hone i) as (j0 & Hj0 & Hrow).
    { rewrite <- Hn. by eapply lookup_lt_Some. }
    exists j0. split; [done|]. intros j Hj. rewrite <- (Hrow j Hj).
    unfold nd_get. by rewrite Hi.
Qed.

End filter_more.


(** * Further properties of retrieval *)

Section retrieve_more.
Context {Encoded Decoded SliceInfo Identifier ProcFn : Type}.
Variable strings_as_json : list string → string.
Variable decode : Encoded → Decoded.
Variable cls_name : string.
Variable str_of_identifier : Identifier → string.
Variable missing_column : string → exn.

Abbreviation CP' := (@CachedPanel Encoded SliceInfo).
Abbreviation retrieve'' :=
  (@retrieve Encoded Decoded SliceInfo Identifier ProcFn strings_as_json decode cls_name
     str_of_identifier missing_column).
Abbreviation lookup_identifier' :=
  (@lookup_identifier Encoded SliceInfo Identifier cls_name str_of_identifier).

(** What a cache cell holds for an identifier and a column-set key, decoded *)
Abbreviation cached cache ident key :=
  (decode <$> (per_columns ← (cache : gmap string (gmap string Encoded)) !! ident;
               per_columns !! key)).

Lemma lookup_each_ok (caches : list (gmap string (gmap string Encoded))) ident key ds :
  lookup_each decode caches ident key = Ok ds →
  Forall2 (λ cache d, cached cache ident key = Some d) caches ds.
Proof.
  revert ds. induction caches as [|cache caches IH]; intros ds; cbn [lookup_each].
  { intros [= <-]. constructor. }
  unfold mbind, mret, lookup_cache.
  destruct (cache !! ident) as [per_columns|] eqn:E1; cbn; [|done].
  destruct (per_columns !! key) as [e|] eqn:E2; cbn; [|done].
  destruct (lookup_each decode caches ident key) as [ds'|]; cbn; [|done].
  intros [= <-]. constructor; [|by apply IH]. rewrite E1. cbn. by rewrite E2.
Qed.

Lemma lookup_each_raises (caches : list (gmap string (gmap string Encoded))) ident key e :
  lookup_each decode caches ident key = Raise e → ∃ k, e = KeyError k.
Proof.
  induction caches as [|cache caches IH]; cbn [lookup_each]; [done|].
  unfold mbind, mret, lookup_cache.
  destruct (cache !! ident) as [per_columns|]; cbn; [|intros [= <-]; by eexists].
  destruct (per_columns !! key) as [x|]; cbn; [|intros [= <-]; by eexists].
  destruct (lookup_each decode caches ident key) as [ds'|]; cbn; [done|].
  intros [= <-]. by apply IH.
Qed.

(** The identifier the lookups are made with, once it is settled *)
Lemma retrieve_resolved (batch : CP') slices columns proc_fns identifier :
  slices_column batch = Some slices →
  identifier_truthy identifier = true ∨ slices ≠ [] →
  ∃ identifier',
    str str_of_identifier identifier' = lookup_identifier' batch identifier
    ∧ retrieve'' batch columns proc_fns identifier false
      = (retrieval ←
           except_KeyError
             (try_retrieval strings_as_json decode str_of_identifier missing_column
                batch identifier' columns) retrieval_failed;
         if negb (proc_fns_truthy proc_fns) then Ok (Some retrieval) else Ok None).
Proof.
  intros Hs Hid. unfold retrieve, lookup_identifier. cbn [negb]. rewrite Hs.
  destruct (identifier_truthy identifier) eqn:Ht; cbn [negb].
  - by exists identifier.
  - destruct Hid as [|Hne]; [done|]. destruct slices as [|first rest]; [done|].
    by exists (infer_identifier cls_name first identifier).
Qed.


(** X16.  Asking for one column set in a list is asking for it alone: the
    batched retrieval of a single non-empty column set and its single
    retrieval give the same result or the same error. *)
Theorem retrieve_batched_one_is_single (batch : CP') c cs proc_fns identifier reapply :
  retrieve'' batch (Batched [c :: cs]) proc_fns identifier reapply
  = retrieve'' batch (Single (c :: cs)) proc_fns identifier reapply.
Proof.
  unfold retrieve. destruct reapply; [done|]. cbn [negb].
  destruct (slices_column batch) as [slices|]; [|done].
  destruct (if negb (identifier_truthy identifier) then _ else _) as [identifier'|e];
    [|done].
  assert (try_retrieval strings_as_json decode str_of_identifier missing_column
            batch identifier' (Batched [c :: cs])
          = try_retrieval strings_as_json decode str_of_identifier missing_column
              batch identifier' (Single (c :: cs))) as Hbody.
  { unfold try_retrieval. cbn [retrieve_column_sets]. unfold mbind, mret.
    destruct (retrieve_column_set _ _ _ _ _ _ _) as [ds|e]; [|done].
    cbn. by rewrite insert_empty. }
  unfold mbind. cbn [result_bind]. by rewrite Hbody.
Qed.

Lemma retrieve_column_sets_ok (batch : CP') caches identifier colss acc r :
  cache_column batch = Some caches →
  retrieve_column_sets strings_as_json decode str_of_identifier missing_column
    batch identifier colss acc = Ok r →
  (∀ cols, cols ∈ colss →
     ∃ ds, r !! strings_as_json cols = Some ds
       ∧ lookup_each decode caches (str str_of_identifier identifier)
           (strings_as_json cols) = Ok ds)
  ∧ (∀ key, key ∉ strings_as_json <$> colss → r !! key = acc !! key).
Proof.
  intros Hc. revert acc. induction colss as [|cols colss IH]; intros acc.
  { cbn. intros [= <-]. split; [by intros ? ?%elem_of_nil|done]. }
  cbn [retrieve_column_sets]. unfold retrieve_column_set at 1. rewrite Hc.
  unfold mbind at 1.
  destruct (lookup_each decode caches _ (strings_as_json cols)) as [ds|e] eqn:Hds;
    cbn [result_bind]; [|done].
  intros (Hin & Hout)%IH. split.
  - intros cols' [->|Hin']%elem_of_cons; [|by apply Hin].
    destruct (decide (strings_as_json cols ∈ strings_as_json <$> colss)) as [Hk|Hk].
    + apply list_elem_of_fmap in Hk as (cols'' & Heq & Hin'').
      destruct (Hin cols'' Hin'') as (ds'' & Hr & Hds''). rewrite <- Heq in *.
      exists ds''. split; [done|]. done.
    + exists ds. split; [|done]. by rewrite (Hout _ Hk), lookup_insert_eq.
  - intros key Hkey. rewrite fmap_cons in Hkey.
    apply not_elem_of_cons in Hkey as [Hne Hkey].
    by rewrite (Hout _ Hkey), lookup_insert_ne.
Qed.

(** X17.  A batched retrieval that returns gives a mapping whose keys are
    exactly the keys of the requested column sets; each key maps to the
    list of decoded entries cached under the identifier and that key, one
    per row of the batch, in order. *)
Theorem retrieve_batched_returns_cached (batch : CP') caches colss proc_fns identifier r :
  cache_column batch = Some caches →
  retrieve'' batch (Batched colss) proc_fns identifier false = Ok (Some r) →
  (∀ key, is_Some (r !! key) ↔ ∃ cols, cols ∈ colss ∧ key = strings_as_json cols)
  ∧ ∀ cols, cols ∈ colss →
      ∃ ds, r !! strings_as_json cols = Some ds
        ∧ Forall2 (λ cache d,
            cached cache (lookup_identifier' batch identifier) (strings_as_json cols)
            = Some d) caches ds.
Proof.
  intros Hc Hret.
  destruct (slices_column batch) as [slices|] eqn:Hs.
  2: { unfold retrieve in Hret. by rewrite Hs in Hret. }
  assert (identifier_truthy identifier = true ∨ slices ≠ []) as Hid.
  { destruct (identifier_truthy identifier) eqn:Ht; [by left|right].
    intros ->. unfold retrieve in Hret. by rewrite Hs, Ht in Hret. }
  destruct (retrieve_resolved batch slices (Batched colss) proc_fns identifier Hs Hid)
    as (identifier' & Hstr & Heq).
  rewrite Heq in Hret. rewrite <- Hstr. clear Heq Hstr.
  unfold try_retrieval in Hret. destruct colss as [|cols0 colss]; [done|].
  destruct (retrieve_column_sets _ _ _ _ batch identifier' (cols0 :: colss) ∅)
    as [r'|e] eqn:Hr'.
  2: { by destruct e. }
  cbn in Hret. destruct (proc_fns_truthy proc_fns); [done|]. cbn in Hret.
  injection Hret as <-.
  apply (retrieve_column_sets_ok _ caches) in Hr' as [Hin Hout]; [|done].
  split.
  - intros key. split.
    + intros Hsome.
      destruct (decide (key ∈ strings_as_json <$> cols0 :: colss)) as [Hk|Hk].
      * apply list_elem_of_fmap in Hk as (cols & -> & Hcols). by exists cols.
      * rewrite (Hout _ Hk), lookup_empty in Hsome. by destruct Hsome.
    + intros (cols & Hcols & ->). destruct (Hin cols Hcols) as (ds & -> & _). by eexists.
  - intros cols Hcols. destruct (Hin cols Hcols) as (ds & Hr & Hds).
    exists ds. split; [done|]. by apply lookup_each_ok.
Qed.

(** X19.  [retrieve] hands back a retrieval only when [reapply] is false, no
    processing function was given, the batch has both columns and at least
    one column set was asked for: in particular the processing functions
    are never applied, giving any makes the result [None]. *)
Theorem retrieve_returns_only_if (batch : CP') columns proc_fns identifier reapply r :
  retrieve'' batch columns proc_fns identifier reapply = Ok (Some r) →
  reapply = false
  ∧ proc_fns_truthy proc_fns = false
  ∧ is_Some (slices_column batch)
  ∧ is_Some (cache_column batch)
  ∧ requested columns ≠ [].
Proof.
  unfold retrieve. destruct reapply; [done|]. cbn [negb].
  destruct (slices_column batch) as [slices|]; [|done].
  destruct (if negb (identifier_truthy identifier) then _ else _) as [identifier'|e0];
    [|done].
  unfold mbind at 1. cbn [result_bind].
  destruct (try_retrieval _ _ _ _ batch identifier' columns) as [r'|e1] eqn:Hbody.
  2: { by destruct e1. }
  cbn. destruct (proc_fns_truthy proc_fns); [done|]. intros _.
  split; [done|]. split; [done|]. split; [by eexists|].
  unfold try_retrieval, retrieve_column_set in Hbody.
  destruct columns as [[|c cs]|[|cols colss]]; try done;
    cbn [retrieve_column_sets] in Hbody; unfold retrieve_column_set in Hbody;
    (destruct (cache_column batch); [split; [by eexists|done]|done]).
Qed.

(** ** The identifier *)

Lemma find_first_match (pre post : list string) (k : string) :
  String.prefix cls_name k = true →
  (∀ k', k' ∈ pre → String.prefix cls_name k' = false) →
  List.find (λ ident_key, String.prefix cls_name ident_key) (pre ++ k :: post) = Some k.
Proof.
  intros Hk Hpre. induction pre as [|k0 pre IH]; cbn.
  - by rewrite Hk.
  - rewrite (Hpre k0 (list_elem_of_here _ _)). apply IH.
    intros k' Hk'. by apply Hpre, list_elem_of_further.
Qed.

(** X20.  Without an identifier, [retrieve] works with the first key of the
    first "slices" cell that starts with the class name, keys taken in their
    order: it gives what it gives when that key is passed as the identifier. *)
Theorem retrieve_infers_first_matching_key (batch : CP') first rest pre post k columns
    proc_fns identifier :
  slices_column batch = Some (first :: rest) →
  first.*1 = pre ++ k :: post →
  String.prefix cls_name k = true →
  (∀ k', k' ∈ pre → String.prefix cls_name k' = false) →
  identifier_truthy identifier = false →
  retrieve'' batch columns proc_fns identifier false
  = retrieve'' batch columns proc_fns (IdStr k) false.
Proof.
  intros Hs Hkeys Hk Hpre Hid.
  assert (∀ identifier0 : @identifier_arg Identifier,
            infer_identifier cls_name first identifier0 = IdStr k) as Hinfer.
  { intros identifier0. unfold infer_identifier.
    by rewrite Hkeys, (find_first_match pre post k Hk Hpre). }
  unfold retrieve. cbn [negb]. rewrite Hs, Hid. cbn [negb]. rewrite !Hinfer.
  by destruct (identifier_truthy (IdStr k)).
Qed.

(** X21.  Without an identifier and without a key that starts with the class
    name, the lookups are made under the string "None": [retrieve] gives
    what it gives for the identifier "None". *)
Theorem retrieve_without_match_uses_None (batch : CP') first rest columns proc_fns :
  slices_column batch = Some (first :: rest) →
  (∀ k, k ∈ first.*1 → String.prefix cls_name k = false) →
  retrieve'' batch columns proc_fns IdNone false
  = retrieve'' batch columns proc_fns (IdStr "None") false.
Proof.
  intros Hs Hnone.
  assert (infer_identifier cls_name first (@IdNone Identifier) = IdNone) as Hinfer.
  { unfold infer_identifier.
    destruct (List.find _ (first.*1)) as [k|] eqn:E; [|done].
    apply find_some in E as [Hin Hk]. apply list_elem_of_In, Hnone in Hin.
    by rewrite Hin in Hk. }
  unfold retrieve. cbn [negb identifier_truthy String.eqb Ascii.eqb Bool.eqb].
  rewrite Hs, Hinfer. cbn [negb]. unfold mbind at 1 3. cbn [result_bind].
  assert (try_retrieval strings_as_json decode str_of_identifier missing_column
            batch IdNone columns
          = try_retrieval strings_as_json decode str_of_identifier missing_column
              batch (IdStr "None") columns) as ->; [|done].
  unfold try_retrieval. destruct columns as [[|c cs]|[|cols colss]]; try done.
  generalize (∅ : gmap string (list Decoded)).
  induction (cols :: colss) as [|cols' colss' IH]; intros acc; [done|].
  cbn [retrieve_column_sets]. unfold mbind.
  change (retrieve_column_set strings_as_json decode str_of_identifier missing_column
            batch (IdStr "None") cols')
    with (retrieve_column_set strings_as_json decode str_of_identifier missing_column
            batch IdNone cols').
  destruct (retrieve_column_set _ _ _ _ _ _ cols'); cbn [result_bind]; [apply IH|done].
Qed.

(** X22.  With an identifier given, the content of the "slices" column is
    not looked at: only its presence counts. *)
Theorem retrieve_with_identifier_ignores_slices
    (slices1 slices2 : list (list (string * SliceInfo)))
    (cache : option (list (gmap string (gmap string Encoded)))) columns proc_fns
    identifier reapply :
  identifier_truthy identifier = true →
  retrieve'' (MkCachedPanel (Some slices1) cache) columns proc_fns identifier reapply
  = retrieve'' (MkCachedPanel (Some slices2) cache) columns proc_fns identifier reapply.
Proof.
  intros Hid. unfold retrieve. destruct reapply; [done|]. cbn [negb slices_column].
  rewrite Hid. cbn [negb]. unfold mbind at 1 3. cbn [result_bind].
  assert (∀ slices : list (list (string * SliceInfo)),
            try_retrieval strings_as_json decode str_of_identifier missing_column
              (MkCachedPanel (Some slices) cache) identifier columns
            = try_retrieval strings_as_json decode str_of_identifier missing_column
                (MkCachedPanel None cache : CP') identifier columns) as Hbody.
  { intros slices. unfold try_retrieval.
    destruct columns as [[|c cs]|[|cols colss]]; try done.
    generalize (∅ : gmap string (list Decoded)).
    induction (cols :: colss) as [|cols' colss' IH]; intros acc; [done|].
    cbn [retrieve_column_sets]. unfold mbind.
    change (retrieve_column_set strings_as_json decode str_of_identifier missing_column
              (MkCachedPanel (Some slices) cache) identifier cols')
      with (retrieve_column_set strings_as_json decode str_of_identifier missing_column
              (MkCachedPanel None cache : CP') identifier cols').
    destruct (retrieve_column_set _ _ _ _ _ _ cols'); cbn [result_bind]; [apply IH|done]. }
  by rewrite !Hbody.
Qed.

(** X23.  An empty [columns] argument raises [IndexError] as soon as the
    identifier is settled, before the cache is read (so also on a batch
    without a "cache" column); and on a batch whose "slices" column has no
    row, leaving the identifier out raises [IndexError] whatever is asked. *)
Theorem retrieve_index_errors (batch : CP') slices columns proc_fns identifier :
  slices_column batch = Some slices →
  ((identifier_truthy identifier = true ∨ slices ≠ []) →
   columns = Single [] ∨ columns = Batched [] →
   retrieve'' batch columns proc_fns identifier false
   = Raise (IndexError "list index out of range"))
  ∧ (identifier_truthy identifier = false → slices = [] →
     retrieve'' batch columns proc_fns identifier false
     = Raise (IndexError "list index out of range")).
Proof.
  intros Hs. split.
  - intros Hid Hcols.
    destruct (retrieve_resolved batch slices columns proc_fns identifier Hs Hid)
      as (identifier' & _ & ->).
    by destruct Hcols as [-> | ->].
  - intros Hid ->. unfold retrieve. cbn [negb]. by rewrite Hs, Hid.
Qed.

End retrieve_more.


(** * The further properties on sample data *)

(** X4 on the counting builder: five rows are counted over three batches *)
Lemma prepare_dataset_visits_witness :
  (∀ a b, is_Ok (prepare_batch counting_builder a b ["text"] tt).2)
  ∧ outcome (prepare_dataset counting_builder (sample_panel [0; 1; 2; 3; 4]) ["text"]
               (Some 2) tt)
    = Ok 5.
Proof.
  assert (∀ a b, is_Ok (prepare_batch counting_builder a b ["text"] tt).2) as Hok
    by (intros a b; eexists; reflexivity).
  split; [exact Hok|].
  destruct (prepare_dataset_visits_every_batch counting_builder
              (sample_panel [0; 1; 2; 3; 4]) ["text"] (Some 2) tt _ Hok eq_refl)
    as (_ & _ & Hout & _).
  exact Hout.
Defined.

(** X6 on the fragile builder: the second of three batches holds the 3 *)
Lemma process_dataset_aborts_witness :
  batch (sample_panel [0; 1; 2; 3; 4; 5]) 2
  = Ok ([sample_panel [0; 1]] ++ sample_panel [2; 3] :: [sample_panel [4; 5]])
  ∧ process_batch fragile_builder tt (sample_panel [2; 3]) ["text"] tt
    = Raise (ValueError "unexpected 3")
  ∧ outcome (sample_process_dataset fragile_builder (sample_panel [0; 1; 2; 3; 4; 5])
               ["text"] (Some 2) None tt)
    = Raise (ValueError "unexpected 3")
  ∧ processed_batches
      (trace (sample_process_dataset fragile_builder
                (sample_panel [0; 1; 2; 3; 4; 5]) ["text"] (Some 2) None tt))
    = [sample_panel [0; 1]] ++ [sample_panel [2; 3]].
Proof.
  split; [reflexivity|]. split; [reflexivity|].
  apply (process_dataset_aborts_on_failure columns_key some_category some_lineage
           some_concat_error fragile_builder
           (sample_panel [0; 1; 2; 3; 4; 5]) ["text"] (Some 2) None tt
           [sample_panel [0; 1]] [sample_panel [4; 5]] (sample_panel [2; 3])
           (ValueError "unexpected 3")).
  - reflexivity.
  - intros b ->%list_elem_of_singleton. eexists _, _. reflexivity.
  - left. reflexivity.
Defined.

(** X7 on the builder that marks the parity in the matrix *)
Lemma process_dataset_slices_witness :
  outcome (sample_process_dataset parity_marker (sample_panel [0; 1; 2; 3])
             ["text"] (Some 3) None tt)
  = Ok ([final_slice columns_key some_category some_lineage parity_marker ["text"]
           "even" [];
         final_slice columns_key some_category some_lineage parity_marker ["text"]
           "odd" []],
        NdArray 2 [[true; false]; [false; true]; [true; false]; [false; true]])
  ∧ length [final_slice columns_key some_category some_lineage parity_marker ["text"]
              "even" [];
            final_slice columns_key some_category some_lineage parity_marker ["text"]
              "odd" []]
    = num_slices parity_marker.
Proof.
  assert (outcome (sample_process_dataset parity_marker (sample_panel [0; 1; 2; 3])
                     ["text"] (Some 3) None tt)
          = Ok ([final_slice columns_key some_category some_lineage parity_marker
                   ["text"] "even" [];
                 final_slice columns_key some_category some_lineage parity_marker
                   ["text"] "odd" []],
                NdArray 2 [[true; false]; [false; true]; [true; false]; [false; true]]))
    as Hrun by reflexivity.
  split; [exact Hrun|].
  destruct (process_dataset_slices_and_lineage columns_key some_category some_lineage
              some_concat_error parity_marker (sample_panel [0; 1; 2; 3]) ["text"]
              (Some 3) None tt _ _ Hrun)
    as (batches & _ & Hlen & _).
  exact Hlen.
Defined.

(** X8 on the builder that marks the first example of every batch *)
Lemma process_dataset_matrix_witness :
  outcome (sample_process_dataset first_in_batch_builder (sample_panel [10; 20; 30; 40])
             ["text"] (Some 2) None tt)
  = Ok ([final_slice columns_key some_category some_lineage first_in_batch_builder
           ["text"] "first" []],
        NdArray 1 [[true]; [false]; [true]; [false]])
  ∧ dp_rows (sample_panel [10; 20; 30; 40]) ≠ [].
Proof.
  assert (outcome (sample_process_dataset first_in_batch_builder
                     (sample_panel [10; 20; 30; 40]) ["text"] (Some 2) None tt)
          = Ok ([final_slice columns_key some_category some_lineage
                   first_in_batch_builder ["text"] "first" []],
                NdArray 1 [[true]; [false]; [true]; [false]]))
    as Hrun by reflexivity.
  split; [exact Hrun|].
  destruct (process_dataset_matrix_needs_agreement columns_key some_category
              some_lineage some_concat_error first_in_batch_builder
              (sample_panel [10; 20; 30; 40]) ["text"] (Some 2) None tt _ _ Hrun)
    as (batches & _ & _ & Hne & _).
  exact Hne.
Defined.

(** X9 on the parity builder *)
Lemma call_is_process_dataset_witness :
  (∀ p, p ∈ prerequisites parity_builder →
     available p (IsPanel (sample_panel [0; 1; 2; 3])) = true)
  ∧ prepare_batch parity_builder = prepare_batch_base
  ∧ 0 < default 100 (Some 7)
  ∧ outcome (sample_call parity_builder (IsPanel (sample_panel [0; 1; 2; 3])) ["text"]
               (Some 7) None tt)
    = outcome (sample_process_dataset parity_builder (sample_panel [0; 1; 2; 3])
                 ["text"] None None tt).
Proof.
  assert (∀ p, p ∈ prerequisites parity_builder →
            available p (IsPanel (sample_panel [0; 1; 2; 3])) = true) as Hav
    by (intros p Hp; by apply elem_of_nil in Hp).
  assert (prepare_batch parity_builder = prepare_batch_base) as Hni by reflexivity.
  assert (0 < default 100 (Some 7)) as Hbs by (cbn; lia).
  split; [exact Hav|]. split; [exact Hni|]. split; [exact Hbs|].
  destruct (call_is_process_dataset columns_key some_category some_lineage
              some_concat_error wrap_rows parity_builder (sample_panel [0; 1; 2; 3])
              ["text"] (Some 7) None tt Hav Hni Hbs)
    as [Hout _].
  exact Hout.
Defined.

(** X24 on the builder that marks the parity in the matrix *)
Lemma process_dataset_returns_witness :
  honors_contract parity_marker ["text"] tt
  ∧ batch (sample_panel [0; 1; 2; 3]) (default 32 (Some 3))
    = Ok [sample_panel [0; 1; 2]; sample_panel [3]]
  ∧ is_Ok (outcome (sample_process_dataset parity_marker (sample_panel [0; 1; 2; 3])
                      ["text"] (Some 3) None tt)).
Proof.
  assert (honors_contract parity_marker ["text"] tt) as Hc
    by (apply marker_builder_honors; reflexivity).
  assert (batch (sample_panel [0; 1; 2; 3]) (default 32 (Some 3))
          = Ok [sample_panel [0; 1; 2]; sample_panel [3]]) as Hb by reflexivity.
  split; [exact Hc|]. split; [exact Hb|].
  apply (process_dataset_returns_iff columns_key some_category some_lineage
           some_concat_error parity_marker (sample_panel [0; 1; 2; 3]) ["text"] (Some 3)
           None tt _ Hc Hb).
  split; [discriminate|].
  intros b j sb _ Hsb. unfold parity_marker in Hsb.
  rewrite marker_builder_sub_batches, list_lookup_fmap in Hsb.
  destruct (_ !! j); [|discriminate]. injection Hsb as <-. reflexivity.
Defined.

(** X25 on the builder that marks the parity in the matrix: four rows for
    four examples *)
Lemma process_dataset_rows_witness :
  honors_contract parity_marker ["text"] tt
  ∧ outcome (sample_process_dataset parity_marker (sample_panel [0; 1; 2; 3])
               ["text"] (Some 3) None tt)
    = Ok ([final_slice columns_key some_category some_lineage parity_marker ["text"]
             "even" [];
           final_slice columns_key some_category some_lineage parity_marker ["text"]
             "odd" []],
          NdArray 2 [[true; false]; [false; true]; [true; false]; [false; true]])
  ∧ length (nd_rows (NdArray 2 [[true; false]; [false; true]; [true; false];
                                [false; true]]))
    = len (sample_panel [0; 1; 2; 3]).
Proof.
  assert (honors_contract parity_marker ["text"] tt) as Hc
    by (apply marker_builder_honors; reflexivity).
  assert (outcome (sample_process_dataset parity_marker (sample_panel [0; 1; 2; 3])
                     ["text"] (Some 3) None tt)
          = Ok ([final_slice columns_key some_category some_lineage parity_marker
                   ["text"] "even" [];
                 final_slice columns_key some_category some_lineage parity_marker
                   ["text"] "odd" []],
                NdArray 2 [[true; false]; [false; true]; [true; false]; [false; true]]))
    as Hrun by reflexivity.
  split; [exact Hc|]. split; [exact Hrun|].
  destruct (process_dataset_rows_in_order columns_key some_category some_lineage
              some_concat_error parity_marker (sample_panel [0; 1; 2; 3]) ["text"]
              (Some 3) None tt _ _ Hc Hrun)
    as (batches & _ & _ & Hlen & _).
  exact Hlen.
Defined.

(** X13 on the sample batch: slice 0 has the two rows column 0 marks *)
Lemma filter_slice_sizes_witness :
  has_shape sample_membership 3 2
  ∧ (∀ c v, sample_batch !! c = Some v → length v = 3)
  ∧ 0 < 2
  ∧ ∃ sl, filter_batch_by_slice_membership sample_batch sample_membership !! 0 = Some sl
      ∧ ∀ c w, sl !! c = Some w → length w = 2.
Proof.
  assert (has_shape sample_membership 3 2) as Hm.
  { repeat split. repeat constructor. }
  assert (∀ c v, sample_batch !! c = Some v → length v = 3) as Hb.
  { unfold sample_batch. intros c v [_ <-]%lookup_singleton_Some. reflexivity. }
  assert (0 < 2) as Hj by lia.
  split; [exact Hm|]. split; [exact Hb|]. split; [exact Hj|].
  destruct (filter_slice_sizes sample_batch sample_membership 3 2 0 Hm Hb Hj)
    as (sl & Hsl & Hlen & _).
  exists sl. split; [exact Hsl|exact Hlen].
Defined.

(** X14 on the sample batch, with a matrix that marks one slice per row *)
Lemma filter_partitions_witness :
  has_shape one_hot_membership 3 2
  ∧ (∀ c v, sample_batch !! c = Some v → length v = 3)
  ∧ (∀ i, i < 3 →
       ∃ j0, j0 < 2 ∧ ∀ j, j < 2 → (nd_get one_hot_membership i j = true ↔ j = j0))
  ∧ concat (omap (λ sl : gmap string (list string), sl !! "text")
              (filter_batch_by_slice_membership sample_batch one_hot_membership))
    ≡ₚ ["a"; "b"; "c"].
Proof.
  assert (has_shape one_hot_membership 3 2) as Hm.
  { repeat split. repeat constructor. }
  assert (∀ c v, sample_batch !! c = Some v → length v = 3) as Hb.
  { unfold sample_batch. intros c v [_ <-]%lookup_singleton_Some. reflexivity. }
  assert (∀ i, i < 3 →
            ∃ j0, j0 < 2
              ∧ ∀ j, j < 2 → (nd_get one_hot_membership i j = true ↔ j = j0)) as Hone.
  { intros [|[|[|i]]] Hi; [exists 0|exists 1|exists 0|lia];
      (split; [lia|]); intros [|[|j]] Hj; cbn; split; intros; (lia || done). }
  split; [exact Hm|]. split; [exact Hb|]. split; [exact Hone|].
  apply (filter_partitions_batch sample_batch one_hot_membership 3 2 Hm Hb Hone).
  reflexivity.
Defined.


(** X17 on the cached batch *)
Lemma retrieve_batched_witness :
  cache_column cached_panel = Some [sample_cache]
  ∧ sample_retrieve cached_panel (Batched [["text"]]) ProcNone IdNone false
    = Ok (Some {[ "text" := [7] ]})
  ∧ ∀ key, is_Some (({[ "text" := [7] ]} : gmap string (list nat)) !! key)
           ↔ ∃ cols, cols ∈ [["text"]] ∧ key = columns_key cols.
Proof.
  assert (sample_retrieve cached_panel (Batched [["text"]]) ProcNone IdNone false
          = Ok (Some {[ "text" := [7] ]})) as Hret by (vm_compute; reflexivity).
  split; [reflexivity|]. split; [exact Hret|].
  destruct (retrieve_batched_returns_cached columns_key id "SliceBuilder" id
              sample_missing_column
              cached_panel [sample_cache] [["text"]] (@ProcNone unit) IdNone _
              eq_refl Hret) as [Hkeys _].
  exact Hkeys.
Defined.

(** X19 on the cached batch *)
Lemma retrieve_returns_only_if_witness :
  sample_retrieve cached_panel (Batched [["text"]]) ProcNone IdNone false
  = Ok (Some {[ "text" := [7] ]})
  ∧ @proc_fns_truthy unit ProcNone = false.
Proof.
  assert (sample_retrieve cached_panel (Batched [["text"]]) ProcNone IdNone false
          = Ok (Some {[ "text" := [7] ]})) as Hret by (vm_compute; reflexivity).
  split; [exact Hret|].
  destruct (retrieve_returns_only_if columns_key id "SliceBuilder" id
              sample_missing_column
              cached_panel (Batched [["text"]]) (@ProcNone unit) IdNone false _ Hret)
    as (_ & Hproc & _).
  exact Hproc.
Defined.

(** X20 on the cached batch: its one key starts with the class name *)
Lemma retrieve_infers_witness :
  slices_column cached_panel = Some ([("SliceBuilder(x)", tt)] :: [])
  ∧ [("SliceBuilder(x)", tt)].*1 = [] ++ "SliceBuilder(x)" :: []
  ∧ String.prefix "SliceBuilder" "SliceBuilder(x)" = true
  ∧ sample_retrieve cached_panel (Single ["text"]) ProcNone IdNone false
    = sample_retrieve cached_panel (Single ["text"]) ProcNone (IdStr "SliceBuilder(x)")
        false.
Proof.
  split; [reflexivity|]. split; [reflexivity|]. split; [reflexivity|].
  apply (retrieve_infers_first_matching_key columns_key id "SliceBuilder" id
              sample_missing_column
           cached_panel [("SliceBuilder(x)", tt)] [] [] [] "SliceBuilder(x)"
           (Single ["text"]) (@ProcNone unit) IdNone eq_refl eq_refl eq_refl).
  - intros k' Hk'. by apply elem_of_nil in Hk'.
  - reflexivity.
Defined.

(** X21 on a batch whose only key belongs to another class *)
Lemma retrieve_without_match_witness :
  slices_column foreign_panel = Some ([("Other(x)", tt)] :: [])
  ∧ (∀ k, k ∈ [("Other(x)", tt)].*1 → String.prefix "SliceBuilder" k = false)
  ∧ sample_retrieve foreign_panel (Single ["text"]) ProcNone IdNone false
    = sample_retrieve foreign_panel (Single ["text"]) ProcNone (IdStr "None") false.
Proof.
  assert (∀ k, k ∈ [("Other(x)", tt)].*1 → String.prefix "SliceBuilder" k = false) as Hno
    by (intros k ->%list_elem_of_singleton; reflexivity).
  split; [reflexivity|]. split; [exact Hno|].
  apply (retrieve_without_match_uses_None columns_key id "SliceBuilder" id
              sample_missing_column
           foreign_panel [("Other(x)", tt)] [] (Single ["text"]) (@ProcNone unit)
           eq_refl Hno).
Defined.

(** X22 on two batches that differ in their "slices" column only *)
Lemma retrieve_ignores_slices_witness :
  @identifier_truthy string (IdStr "SliceBuilder(x)") = true
  ∧ sample_retrieve cached_panel (Single ["text"]) ProcNone (IdStr "SliceBuilder(x)") false
    = sample_retrieve foreign_panel (Single ["text"]) ProcNone (IdStr "SliceBuilder(x)")
        false.
Proof.
  split; [reflexivity|].
  apply (retrieve_with_identifier_ignores_slices columns_key id "SliceBuilder" id
              sample_missing_column
           [[("SliceBuilder(x)", tt)]] [[("Other(x)", tt)]] (Some [sample_cache])
           (Single ["text"]) (@ProcNone unit) (IdStr "SliceBuilder(x)") false eq_refl).
Defined.

(** X23 on the batch without a "cache" column: no column set asked for *)
Lemma retrieve_index_errors_witness :
  slices_column slices_only_panel = Some [[("SliceBuilder(x)", tt)]]
  ∧ sample_retrieve slices_only_panel (Batched []) ProcNone IdNone false
    = Raise (IndexError "list index out of range").
Proof.
  split; [reflexivity|].
  destruct (retrieve_index_errors columns_key id "SliceBuilder" id
              sample_missing_column
              slices_only_panel [[("SliceBuilder(x)", tt)]] (Batched [])
              (@ProcNone unit) IdNone eq_refl) as [Hcols _].
  apply Hcols; [by right|by right].
Defined.
